(** * Invoice Manager: the storage layer of [invoice_manager.py]

    A shallow embedding of class [InvoiceDB] (SQLite storage, auto-numbering,
    filtered listing, CSV export) and the properties of its specification.

    Conventions of the embedding.
    - Text (Python [str], SQLite [TEXT]) is a [string]; each [ascii] stands
      for one character (a code point below 256).
    - Python [int] is [Z] (unbounded).
    - Python [float] is [spec_float]; no arithmetic is done on it.
    - The SQLite connection is the record [DB]: the rows of table [invoices]
      in rowid order and the key/value table [meta].  Every method commits
      before it returns, and a statement that raises changes nothing, so one
      state stands for both the connection's view and the file.
    - A method that writes is a state transformer [M A]; an exception is the
      outcome [Raise e].  The two methods that only read, [get_invoice] and
      [list_invoices], are functions of the state.

    What the SQL statements and the library calls do is taken from SQLite
    and CPython: rowid assignment, the UNIQUE constraint, [LIKE], the order
    of NULL, the binding of a float to a REAL column, [int()], [str()],
    [str.strip()], the format [05d], [csv.writer] and [csv.reader] with the
    reader's field size limit.  Three things are parameters: SQLite's
    [date()] function, the text [str()] gives for a float, and the pandas
    writer of [export_csv], of which [to_csv] is the instance for a given
    [os.linesep].

    Left out are the configurable resource limits of the two engines, which
    the application never reaches through its own data: the random choice
    of a rowid once the largest one is 2^63-1, the length limit of a [LIKE]
    pattern (50000 bytes), and the interpreter's limit on the number of
    digits in [int]/[str] conversions. *)

From Stdlib Require Import ZArith Ascii String List Lia Bool.
From Stdlib Require Import DecimalString DecimalPos DecimalZ DecimalFacts.
From Stdlib Require Import Floats.SpecFloat.
From stdpp Require Import base option list sorting gmap strings.

#[local] Open Scope string_scope.
#[local] Open Scope Z_scope.

(** ** Python built-ins used by the storage layer *)

Module Py.

(** Exceptions the modelled code can raise. *)
Inductive exn : Type :=
  | IntegrityError   (* sqlite3.IntegrityError: UNIQUE constraint failed *)
  | TypeError        (* subscripting the [None] of an empty fetchone() *)
  | ValueError.      (* int() on text that is not a decimal literal *)

(** [str(n)] for an [int]: decimal digits, ["-"] in front when negative. *)
Definition str (n : Z) : string := NilZero.string_of_int (Z.to_int n).

Definition is_digit (c : ascii) : bool :=
  match c with
  | "0" | "1" | "2" | "3" | "4" | "5" | "6" | "7" | "8" | "9" => true
  | _ => false
  end%char.

(** Characters [str.strip()] removes from both ends: the whitespace of
    [str.isspace] among the code points below 256. *)
Definition is_space (c : ascii) : bool :=
  let n := N_of_ascii c in
  ((9 <=? n) && (n <=? 13) || (28 <=? n) && (n <=? 32)
   || (n =? 133) || (n =? 160))%N.

Fixpoint lstrip (s : string) : string :=
  match s with
  | String c s' => if is_space c then lstrip s' else s
  | EmptyString => EmptyString
  end.

Fixpoint rstrip (s : string) : string :=
  match s with
  | String c s' =>
      match rstrip s' with
      | EmptyString => if is_space c then EmptyString else String c EmptyString
      | r => String c r
      end
  | EmptyString => EmptyString
  end.

Definition strip (s : string) : string := rstrip (lstrip s).

(** The digits of a decimal literal: at least one digit, and single
    underscores allowed between digits only.  Returns the digits without the
    underscores. *)
Fixpoint literal_digits (after_digit : bool) (s : string) : option string :=
  match s with
  | EmptyString => if after_digit then Some EmptyString else None
  | String c s' =>
      if is_digit c then option_map (String c) (literal_digits true s')
      else if Ascii.eqb c "_" && after_digit then literal_digits false s'
      else None
  end.

(** Characters [int()] skips at both ends.  The text is first brought to
    ASCII ([_PyUnicode_TransformDecimalAndSpaceToASCII]): a code point
    below 127 is kept as it is, a Unicode space above becomes a blank; then
    [Py_ISSPACE] is skipped (tab, line feed, vertical tab, form feed,
    carriage return, blank).  So the separators 28-31, which [str.strip()]
    removes, are not skipped by [int()]. *)
Definition is_int_space (c : ascii) : bool :=
  let n := N_of_ascii c in
  ((9 <=? n) && (n <=? 13) || (n =? 32) || (n =? 133) || (n =? 160))%N.

Fixpoint int_lstrip (s : string) : string :=
  match s with
  | String c s' => if is_int_space c then int_lstrip s' else s
  | EmptyString => EmptyString
  end.

Fixpoint int_rstrip (s : string) : string :=
  match s with
  | String c s' =>
      match int_rstrip s' with
      | EmptyString =>
          if is_int_space c then EmptyString else String c EmptyString
      | r => String c r
      end
  | EmptyString => EmptyString
  end.

(** [int(s)] for text [s], base 10: surrounding whitespace, an optional
    sign, then the digits.  [None] is [ValueError]. *)
Definition int (s : string) : option Z :=
  let s := int_rstrip (int_lstrip s) in
  let '(neg, body) :=
    match s with
    | String "-" r => (true, r)
    | String "+" r => (false, r)
    | _ => (false, s)
    end in
  match literal_digits false body with
  | Some ds =>
      match NilEmpty.uint_of_string ds with
      | Some u => Some (if neg then - Z.of_uint u else Z.of_uint u)
      | None => None
      end
  | None => None
  end.

(** [s.zfill(w)] for a string of digits: zeros on the left up to width [w]. *)
Definition zfill (w : nat) (s : string) : string :=
  Nat.iter (w - String.length s) (String "0") s.

(** [f"{n:05d}"]: sign-aware zero padding to a minimum width of 5; wider
    numbers are printed in full. *)
Definition format_05d (n : Z) : string :=
  if n <? 0 then String "-" (zfill 4 (str (- n))) else zfill 5 (str n).

End Py.

(** ** SQLite operators and functions the queries use *)

Module SQLite.

(** Text reaches [LIKE] as a C string: it ends at the first NUL. *)
Fixpoint cstr (s : string) : string :=
  match s with
  | String c s' => if Ascii.eqb c "000" then EmptyString else String c (cstr s')
  | EmptyString => EmptyString
  end.

Definition is_upper (c : ascii) : bool :=
  let n := N_of_ascii c in ((65 <=? n) && (n <=? 90))%N.

(** [sqlite3Tolower]: only the ASCII letters A-Z are folded. *)
Definition tolower (c : ascii) : ascii :=
  if is_upper c then ascii_of_N (N_of_ascii c + 32) else c.

(** Two characters match under [LIKE]: equal, or both ASCII and equal after
    folding.  ([LIKE] ignores the case of ASCII letters unless the pragma
    [case_sensitive_like] is set, which the application never does.) *)
Definition char_match (c c2 : ascii) : bool :=
  Ascii.eqb c c2
  || (Ascii.eqb (tolower c) (tolower c2)
      && (N_of_ascii c <? 128)%N && (N_of_ascii c2 <? 128)%N).

(** [patternCompare] for [LIKE] without [ESCAPE]: ["%"] matches any run of
    characters, ["_"] matches exactly one character, any other character
    matches itself up to ASCII case. *)
Fixpoint patternCompare (zPattern zString : string) : bool :=
  match zPattern with
  | EmptyString =>
      match zString with EmptyString => true | _ => false end
  | String c p' =>
      if Ascii.eqb c "%" then
        (fix star (s : string) : bool :=
           patternCompare p' s
           || match s with
              | EmptyString => false
              | String _ s' => star s'
              end) zString
      else
        match zString with
        | EmptyString => false
        | String c2 s' =>
            (if Ascii.eqb c "_" then true else char_match c c2)
            && patternCompare p' s'
        end
  end.

(** [text LIKE pattern]: both operands are read as C strings. *)
Definition like (text pattern : string) : bool :=
  patternCompare (cstr pattern) (cstr text).

(** Binding a Python float to a [REAL] column and reading the column back.
    NaN is stored as NULL ([sqlite3VdbeMemSetDouble]).  In a column of REAL
    affinity a double with a small integer value is written to the record
    as that integer and converted back when read: the value is the same,
    but the zero loses its sign, so [-0.0] is read back as [0.0].  Every
    other double is stored as its 8 bytes and read back unchanged. *)
Definition bind_double (x : spec_float) : option spec_float :=
  match x with
  | S754_nan => None
  | S754_zero _ => Some (S754_zero false)
  | _ => Some x
  end.

(** Comparison of two SQL values of class TEXT-or-NULL under the BINARY
    collation: NULL makes the comparison NULL ([None]). *)
Definition text_le (a b : option string) : option bool :=
  match a, b with
  | Some x, Some y => Some (String.leb x y)
  | _, _ => None
  end.

(** The order [ORDER BY] uses on TEXT-or-NULL keys: NULL sorts before every
    text, texts by BINARY collation. *)
Definition key_le (a b : option string) : Prop :=
  match a, b with
  | None, _ => True
  | Some _, None => False
  | Some x, Some y => String.leb x y = true
  end.

End SQLite.

(** ** The data model *)

(** A row of table [invoices]; [get_invoice] returns it as the tuple
    (id, invoice_no, date, type, customer, items, total, notes).
    [total] is a REAL column: [None] is SQL NULL. *)
Module Invoice.
Record t : Type := mk {
  id : Z;
  invoice_no : string;
  date : string;
  type : string;
  customer : string;
  items : string;
  total : option spec_float;
  notes : string
}.
End Invoice.

(** A row of [list_invoices]: the projection
    (id, invoice_no, date, type, customer, total). *)
Module Summary.
Record t : Type := mk {
  id : Z;
  invoice_no : string;
  date : string;
  type : string;
  customer : string;
  total : option spec_float
}.
End Summary.

Definition summary (r : Invoice.t) : Summary.t :=
  Summary.mk (Invoice.id r) (Invoice.invoice_no r) (Invoice.date r)
             (Invoice.type r) (Invoice.customer r) (Invoice.total r).

(** The database behind [self.conn]. *)
Record DB : Type := mkDB {
  invoices : list Invoice.t;       (* table invoices, in rowid order *)
  meta : gmap string string        (* table meta: k -> v *)
}.

(** ** Outcomes and the state monad of the writing methods *)

Inductive result (A : Type) : Type :=
  | Ok (a : A)
  | Raise (e : Py.exn).
Arguments Ok {A} a.
Arguments Raise {A} e.

Definition M (A : Type) : Type := DB -> result A * DB.

Definition raise {A} (e : Py.exn) : M A := fun db => (Raise e, db).
Definition get_db : M DB := fun db => (Ok db, db).
Definition put_db (db : DB) : M unit := fun _ => (Ok tt, db).

#[global] Instance M_ret : MRet M := fun A a db => (Ok a, db).
#[global] Instance M_bind : MBind M := fun A B k m db =>
  match m db with
  | (Ok a, db') => k a db'
  | (Raise e, db') => (Raise e, db')
  end.

(** ** class InvoiceDB *)

Definition last_invoice : string := "last_invoice".

(** A fresh database file: both tables exist and are empty. *)
Definition connect : DB := mkDB [] ∅.

(** [_create_tables]: the tables exist already (IF NOT EXISTS);
    [INSERT OR IGNORE] adds the counter row only when the key is absent. *)
Definition _create_tables : M unit :=
  db ← get_db;
  match meta db !! last_invoice with
  | Some _ => mret tt
  | None => put_db (mkDB (invoices db) (<[last_invoice := "0"]> (meta db)))
  end.

(** [InvoiceDB.__init__] on a fresh file. *)
Definition init : DB := snd (_create_tables connect).

(** [next_invoice_no]. *)
Definition next_invoice_no (prefix : string) : M string :=
  db ← get_db;
  match meta db !! last_invoice with
  | None => raise Py.TypeError              (* c.fetchone() is None *)
  | Some v =>
      match Py.int v with
      | None => raise Py.ValueError
      | Some last =>
          let last := last + 1 in
          put_db (mkDB (invoices db)
                       (<[last_invoice := Py.str last]> (meta db)));;
          mret (prefix ++ "-" ++ Py.format_05d last)
      end
  end.

(** The rowid SQLite gives a row inserted without an id: 1 in an empty
    table, otherwise one more than the largest rowid in use. *)
Definition new_rowid (rows : list Invoice.t) : Z :=
  match rows with
  | [] => 1
  | r :: rows' => foldr (fun r m => Z.max (Invoice.id r) m) (Invoice.id r) rows' + 1
  end.

(** The UNIQUE constraint on [invoice_no]: some row other than [skip] holds
    the same text. *)
Definition invoice_no_taken (rows : list Invoice.t) (skip : option Z)
    (invoice_no : string) : bool :=
  existsb (fun r => bool_decide (Invoice.invoice_no r = invoice_no)
                    && negb (bool_decide (Some (Invoice.id r) = skip))) rows.

(** [add_invoice]: returns [c.lastrowid]. *)
Definition add_invoice (invoice_no date itype customer items_text : string)
    (total : spec_float) (notes : string) : M Z :=
  db ← get_db;
  if invoice_no_taken (invoices db) None invoice_no then
    raise Py.IntegrityError
  else
    let rowid := new_rowid (invoices db) in
    let row := Invoice.mk rowid invoice_no date itype customer items_text
                          (SQLite.bind_double total) notes in
    put_db (mkDB (invoices db ++ [row]) (meta db));;
    mret rowid.

(** [update_invoice]: UPDATE ... WHERE id=?.  The UNIQUE check applies to
    the row being rewritten, so it can only fail when the id exists. *)
Definition update_invoice (id_ : Z)
    (invoice_no date itype customer items_text : string)
    (total : spec_float) (notes : string) : M unit :=
  db ← get_db;
  if existsb (fun r => bool_decide (Invoice.id r = id_)) (invoices db) then
    if invoice_no_taken (invoices db) (Some id_) invoice_no then
      raise Py.IntegrityError
    else
      let set r :=
        if bool_decide (Invoice.id r = id_) then
          Invoice.mk id_ invoice_no date itype customer items_text
                     (SQLite.bind_double total) notes
        else r in
      put_db (mkDB (map set (invoices db)) (meta db))
  else mret tt.

(** [delete_invoice]: DELETE ... WHERE id=?. *)
Definition delete_invoice (id_ : Z) : M unit :=
  db ← get_db;
  put_db (mkDB (List.filter (fun r => negb (bool_decide (Invoice.id r = id_)))
                            (invoices db))
               (meta db)).

(** [get_invoice]: the full row, or [None] for fetchone() finding no row. *)
Definition get_invoice (db : DB) (id_ : Z) : option Invoice.t :=
  List.find (fun r => bool_decide (Invoice.id r = id_)) (invoices db).

(** The PRIMARY KEY constraint: no two rows share an id. *)
Definition primary_key (db : DB) : Prop :=
  NoDup (Invoice.id <$> invoices db).

(** *** list_invoices *)

(** One entry of [conds] together with its entry of [params]. *)
Inductive cond : Type :=
  | TypeEq (v : string)            (* type=?                v           *)
  | CustomerLike (pat : string)    (* customer LIKE ?       '%'+v+'%'   *)
  | InvoiceNoLike (pat : string)   (* invoice_no LIKE ?     '%'+v+'%'   *)
  | DateFrom (v : string)          (* date(date) >= date(?) v           *)
  | DateTo (v : string).           (* date(date) <= date(?) v           *)

(** ['k' in filters and filters['k']]: the value when the key is present
    and the text is not empty. *)
Definition active (filters : gmap string string) (k : string) : option string :=
  match filters !! k with
  | Some v => if bool_decide (v = "") then None else Some v
  | None => None
  end.

(** The [if] cascade that fills [conds] and [params], in its order. *)
Definition build_conds (filters : gmap string string) : list cond :=
  (match active filters "type" with Some v => [TypeEq v] | None => [] end)
  ++ (match active filters "customer" with
      | Some v => [CustomerLike ("%" ++ v ++ "%")] | None => [] end)
  ++ (match active filters "invoice_no" with
      | Some v => [InvoiceNoLike ("%" ++ v ++ "%")] | None => [] end)
  ++ (match active filters "date_from" with
      | Some v => [DateFrom v] | None => [] end)
  ++ (match active filters "date_to" with
      | Some v => [DateTo v] | None => [] end).

Section Listing.

(** SQLite's [date()] function of one argument: the normalised
    [YYYY-MM-DD] text of a time value, NULL ([None]) for text it cannot
    read.  It is a built-in of the database engine and is taken as a
    parameter. *)
Variable sql_date : string -> option string.

(** The value of one WHERE term on one row; [None] is NULL. *)
Definition eval_cond (r : Invoice.t) (c : cond) : option bool :=
  match c with
  | TypeEq v => Some (bool_decide (Invoice.type r = v))
  | CustomerLike pat => Some (SQLite.like (Invoice.customer r) pat)
  | InvoiceNoLike pat => Some (SQLite.like (Invoice.invoice_no r) pat)
  | DateFrom v => SQLite.text_le (sql_date v) (sql_date (Invoice.date r))
  | DateTo v => SQLite.text_le (sql_date (Invoice.date r)) (sql_date v)
  end.

(** WHERE c1 AND ... AND cn keeps a row when every term is true (a NULL
    term rejects the row); without terms there is no WHERE clause. *)
Definition where_ (conds : list cond) (r : Invoice.t) : bool :=
  forallb (fun c => bool_decide (eval_cond r c = Some true)) conds.

(** [r1] may come before [r2] under ORDER BY date(date) DESC. *)
Definition date_desc (r1 r2 : Invoice.t) : Prop :=
  SQLite.key_le (sql_date (Invoice.date r2)) (sql_date (Invoice.date r1)).

#[global] Instance date_desc_dec : RelDecision date_desc.
Proof.
  intros r1 r2. unfold date_desc, SQLite.key_le.
  destruct (sql_date (Invoice.date r2)), (sql_date (Invoice.date r1));
    try apply _.
Defined.

(** [list_invoices]: [filters or {}], the WHERE clause, the ORDER BY and
    the projection.  SQL leaves the order of rows with equal keys open; the
    model fixes one, that of a merge sort of the rows taken in rowid
    order. *)
Definition list_invoices (db : DB) (filters : option (gmap string string))
    : list Summary.t :=
  let filters := default ∅ filters in
  let conds := build_conds filters in
  summary <$> merge_sort date_desc (List.filter (where_ conds) (invoices db)).

End Listing.

(** *** export_csv *)

Module csv.

Definition CR : ascii := "013".
Definition LF : ascii := "010".
Definition delimiter : ascii := ",".
Definition quotechar : ascii := "034".
(** The [excel] dialect: lineterminator ['\r\n'], QUOTE_MINIMAL,
    doublequote, no escapechar. *)
Definition lineterminator : string := String CR (String LF EmptyString).

(** The reader's limit on the length of a field, [csv.field_size_limit()],
    as the module sets it. *)
Definition field_size_limit : Z := 131072.

(** [c] occurs in [s]. *)
Fixpoint find_char (c : ascii) (s : string) : bool :=
  match s with
  | String x s' => Ascii.eqb c x || find_char c s'
  | EmptyString => false
  end.

(** *** The writer

    [csv.writer(f)] writes in the [excel] dialect; a caller can pass
    another line terminator, the rest of the dialect staying as it is.
    What follows is [join_append_data] and [csv_writerow] of CPython 3.11
    for QUOTE_MINIMAL. *)
Section Writer.

Variable terminator : string.    (* dialect.lineterminator *)

(** A field must be quoted when it holds the delimiter, the quote character
    or a character of the line terminator. *)
Definition is_special (c : ascii) : bool :=
  Ascii.eqb c delimiter || Ascii.eqb c quotechar || find_char c terminator.

Fixpoint needs_quote (s : string) : bool :=
  match s with
  | String c s' => is_special c || needs_quote s'
  | EmptyString => false
  end.

(** The field's characters with every quote character doubled. *)
Fixpoint double_quotes (s : string) : string :=
  match s with
  | String c s' =>
      if Ascii.eqb c quotechar then String c (String c (double_quotes s'))
      else String c (double_quotes s')
  | EmptyString => EmptyString
  end.

Definition quoted (s : string) : string :=
  String quotechar (double_quotes s ++ String quotechar EmptyString).

Definition join_append (field : string) : string :=
  if needs_quote field then quoted field else field.

(** [writer.writerow]: the fields joined by the delimiter, then the line
    terminator.  A record that would be empty although it has a field (one
    empty field) is written as a quoted empty field. *)
Definition writerow (fields : list string) : string :=
  match fields with
  | [EmptyString] => quoted EmptyString ++ terminator
  | _ => String.concat (String delimiter EmptyString) (join_append <$> fields)
         ++ terminator
  end.

End Writer.

(** *** The reader *)

(** The states of the reader's automaton that the [excel] dialect reaches
    (it has no escape character). *)
Inductive ParserState : Type :=
  | START_RECORD | START_FIELD | IN_FIELD | IN_QUOTED_FIELD
  | QUOTE_IN_QUOTED_FIELD | EAT_CRNL.

#[global] Instance ParserState_eq_dec : EqDecision ParserState.
Proof. solve_decision. Defined.

Record ReaderObj : Type := mkReader {
  state : ParserState;
  field : string;            (* characters of the field being read *)
  fields : list string       (* fields of the record read so far *)
}.

Definition parse_reset : ReaderObj := mkReader START_RECORD EmptyString [].

Definition set_state (st : ParserState) (r : ReaderObj) : ReaderObj :=
  mkReader st (field r) (fields r).

Definition parse_save_field (r : ReaderObj) : ReaderObj :=
  mkReader (state r) EmptyString (fields r ++ [field r]).

Definition is_newline (c : ascii) : bool := Ascii.eqb c LF || Ascii.eqb c CR.

(** The lines a text file opened with [newline=''] hands out: a line ends
    after ['\n'], after ['\r\n'] or after a lone ['\r'], and keeps its
    ending.  [cur] is the part of the current line already seen. *)
Fixpoint readlines_from (cur text : string) : list string :=
  match text with
  | EmptyString =>
      match cur with EmptyString => [] | _ => [cur] end
  | String c rest =>
      let cur' := cur ++ String c EmptyString in
      if Ascii.eqb c LF then cur' :: readlines_from EmptyString rest
      else if Ascii.eqb c CR then
        match rest with
        | String c2 _ =>
            if Ascii.eqb c2 LF then readlines_from cur' rest
            else cur' :: readlines_from EmptyString rest
        | EmptyString => cur' :: readlines_from EmptyString rest
        end
      else readlines_from cur' rest
  end.

Definition readlines (text : string) : list string :=
  readlines_from EmptyString text.


Section Reader.

Variable field_limit : Z.    (* the module's field size limit *)

(** [parse_add_char]: a character more for the field in progress;
    [csv.Error] ([None]) once the field has reached the limit. *)
Definition parse_add_char (c : ascii) (r : ReaderObj) : option ReaderObj :=
  if field_limit <=? Z.of_nat (String.length (field r)) then None
  else Some (mkReader (state r) (field r ++ String c EmptyString) (fields r)).

(** The START_FIELD case, which START_RECORD falls through to. *)
Definition start_field (c : option ascii) (r : ReaderObj)
    : option ReaderObj :=
  match c with
  | None => Some (set_state START_RECORD (parse_save_field r))
  | Some ch =>
      if is_newline ch then Some (set_state EAT_CRNL (parse_save_field r))
      else if Ascii.eqb ch quotechar then Some (set_state IN_QUOTED_FIELD r)
      else if Ascii.eqb ch delimiter then
        Some (set_state START_FIELD (parse_save_field r))
      else set_state IN_FIELD <$> parse_add_char ch r
  end.

(** [parse_process_char]; the input [None] is the end-of-line marker the
    reader feeds after each line, the result [None] is [csv.Error]. *)
Definition parse_process_char (r : ReaderObj) (c : option ascii)
    : option ReaderObj :=
  match state r with
  | START_RECORD =>
      match c with
      | None => Some r
      | Some ch =>
          if is_newline ch then Some (set_state EAT_CRNL r)
          else start_field c r
      end
  | START_FIELD => start_field c r
  | IN_FIELD =>
      match c with
      | None => Some (set_state START_RECORD (parse_save_field r))
      | Some ch =>
          if is_newline ch then Some (set_state EAT_CRNL (parse_save_field r))
          else if Ascii.eqb ch delimiter then
            Some (set_state START_FIELD (parse_save_field r))
          else parse_add_char ch r
      end
  | IN_QUOTED_FIELD =>
      match c with
      | None => Some r
      | Some ch =>
          if Ascii.eqb ch quotechar then Some (set_state QUOTE_IN_QUOTED_FIELD r)
          else parse_add_char ch r
      end
  | QUOTE_IN_QUOTED_FIELD =>
      match c with
      | None => Some (set_state START_RECORD (parse_save_field r))
      | Some ch =>
          if Ascii.eqb ch quotechar then
            set_state IN_QUOTED_FIELD <$> parse_add_char ch r
          else if Ascii.eqb ch delimiter then
            Some (set_state START_FIELD (parse_save_field r))
          else if is_newline ch then
            Some (set_state EAT_CRNL (parse_save_field r))
          else set_state IN_FIELD <$> parse_add_char ch r
      end
  | EAT_CRNL =>
      match c with
      | None => Some (set_state START_RECORD r)
      | Some ch => if is_newline ch then Some r else None
      end
  end.

(** The characters of one line, in order. *)
Fixpoint feed (r : ReaderObj) (line : string) : option ReaderObj :=
  match line with
  | String c line' =>
      match parse_process_char r (Some c) with
      | Some r' => feed r' line'
      | None => None
      end
  | EmptyString => Some r
  end.

(** One line, then the end-of-line marker. *)
Definition feed_line (r : ReaderObj) (line : string) : option ReaderObj :=
  match feed r line with
  | Some r' => parse_process_char r' None
  | None => None
  end.

(** [list(csv.reader(f))]: every [Reader_iternext] starts from
    [parse_reset] and takes lines until the automaton is back in
    START_RECORD; at the end of the input a record that is still open is
    closed when it has a field in progress. *)
Fixpoint reader_rows (r : ReaderObj) (lines : list string)
    : option (list (list string)) :=
  match lines with
  | [] =>
      if negb (bool_decide (field r = EmptyString))
         || bool_decide (state r = IN_QUOTED_FIELD)
      then Some [fields (parse_save_field r)]
      else Some []
  | l :: lines' =>
      match feed_line r l with
      | None => None
      | Some r' =>
          if bool_decide (state r' = START_RECORD) then
            cons (fields r') <$> reader_rows parse_reset lines'
          else reader_rows r' lines'
      end
  end.

Definition reader (text : string) : option (list (list string)) :=
  reader_rows parse_reset (readlines text).



End Reader.

End csv.


Section ExportCsv.

(** [str(x)] for a Python float (its shortest repr); only its result as
    text matters here, so it is a parameter. *)
Variable float_str : spec_float -> string.




End ExportCsv.

(** ** Notions of the specification *)

(** [N] calls of [next_invoice_no] in a row, one per prefix of the list. *)
Fixpoint next_invoice_nos (prefixes : list string) : M (list string) :=
  match prefixes with
  | [] => mret []
  | prefix :: prefixes' =>
      no ← next_invoice_no prefix;
      nos ← next_invoice_nos prefixes';
      mret (no :: nos)
  end.

(** [s] without its prefix [p], when it has that prefix. *)
Fixpoint strip_prefix (p s : string) : option string :=
  match p, s with
  | EmptyString, _ => Some s
  | String a p', String b s' =>
      if Ascii.eqb a b then strip_prefix p' s' else None
  | String _ _, EmptyString => None
  end.

(** The numeric suffix of an invoice number made from [prefix]: the number
    written after the prefix and the dash. *)
Definition numeric_suffix (prefix invoice_no : string) : option Z :=
  match strip_prefix (prefix ++ "-") invoice_no with
  | Some digits => Py.int digits
  | None => None
  end.

(** Text made of the decimal digits 0-9 only. *)
Fixpoint all_digits (s : string) : bool :=
  match s with
  | String c s' => Py.is_digit c && all_digits s'
  | EmptyString => true
  end.

(** [needle] occurs in [hay] as a substring. *)
Fixpoint contains (needle hay : string) : bool :=
  String.prefix needle hay
  || match hay with
     | String _ hay' => contains needle hay'
     | EmptyString => false
     end.

(** [p] is a prefix of [s] when ASCII letters are compared without case. *)
Fixpoint prefix_nocase (p s : string) : bool :=
  match p, s with
  | EmptyString, _ => true
  | String c p', String d s' => SQLite.char_match c d && prefix_nocase p' s'
  | String _ _, EmptyString => false
  end.

(** [needle] occurs in [hay] as a substring when ASCII letters are compared
    without case. *)
Fixpoint contains_nocase (needle hay : string) : bool :=
  prefix_nocase needle hay
  || match hay with
     | String _ hay' => contains_nocase needle hay'
     | EmptyString => false
     end.

(** Text without NUL and without the two wildcards of [LIKE]. *)
Fixpoint plain (s : string) : bool :=
  match s with
  | String c s' =>
      negb (Ascii.eqb c "%") && negb (Ascii.eqb c "_")
      && negb (Ascii.eqb c "000") && plain s'
  | EmptyString => true
  end.

(** An instance of the parameter [sql_date] for running the model: it
    reads the canonical form [YYYY-MM-DD] with a month 01-12 and a day
    01-28, for which [date()] returns its argument, and nothing else. *)
Definition two_digits (a b : ascii) : option Z :=
  if Py.is_digit a && Py.is_digit b
  then Some (10 * (Z.of_N (N_of_ascii a) - 48) + (Z.of_N (N_of_ascii b) - 48))
  else None.

Definition canonical_date (s : string) : option string :=
  match s with
  | String y1 (String y2 (String y3 (String y4 (String "-"
      (String mo1 (String mo2 (String "-" (String da1 (String da2 EmptyString))))))))) =>
      match two_digits y1 y2, two_digits y3 y4, two_digits mo1 mo2, two_digits da1 da2 with
      | Some _, Some _, Some m, Some d =>
          if (1 <=? m) && (m <=? 12) && (1 <=? d) && (d <=? 28) then Some s
          else None
      | _, _, _, _ => None
      end
  | _ => None
  end.

(** ** Sample data *)

(** 50.0 and 300.0 as floats. *)
Definition fifty : spec_float := S754_finite false 50 0.
Definition three_hundred : spec_float := S754_finite false 300 0.

(** The invoice of the specification's example scenario, stored in a fresh
    database. *)
Definition acme_row : Invoice.t :=
  Invoice.mk 1 "INV-00001" "2024-01-10" "Outward" "Acme" "Widget x2 - 50"
             (Some fifty) "".

Definition acme_db : DB :=
  snd (add_invoice "INV-00001" "2024-01-10" "Outward" "Acme" "Widget x2 - 50"
                   fifty "" init).

(** A second invoice, with the two-line items text of [insert_sample]. *)
Definition sample_items : string :=
  "Item A x1 - 100" ++ String csv.LF "Item B x2 - 200".

Definition two_db : DB :=
  snd (add_invoice "SAMPLE-00002" "2024-02-05" "Inward" "Customer 1"
                   sample_items three_hundred
                   "Sample invoice created for testing" acme_db).

(** ** The rest of the storage layer and its callers *)

(** The UNIQUE constraint on [invoice_no], as a property of the table. *)
Definition unique_invoice_no (db : DB) : Prop :=
  NoDup (Invoice.invoice_no <$> invoices db).

(** One call of a method of [InvoiceDB] that can write. *)
Inductive call : Type :=
  | Call_create_tables
  | Call_next_invoice_no (prefix : string)
  | Call_add_invoice (invoice_no date itype customer items_text : string)
                     (total : spec_float) (notes : string)
  | Call_update_invoice (id_ : Z)
                        (invoice_no date itype customer items_text : string)
                        (total : spec_float) (notes : string)
  | Call_delete_invoice (id_ : Z).

(** The database after one call, whether it returned or raised. *)
Definition exec (c : call) (db : DB) : DB :=
  match c with
  | Call_create_tables => snd (_create_tables db)
  | Call_next_invoice_no prefix => snd (next_invoice_no prefix db)
  | Call_add_invoice invoice_no date itype customer items_text total notes =>
      snd (add_invoice invoice_no date itype customer items_text total notes db)
  | Call_update_invoice id_ invoice_no date itype customer items_text total notes =>
      snd (update_invoice id_ invoice_no date itype customer items_text
                          total notes db)
  | Call_delete_invoice id_ => snd (delete_invoice id_ db)
  end.

(** The database after a sequence of calls, first call first. *)
Definition exec_all (cs : list call) (db : DB) : DB :=
  fold_left (fun db c => exec c db) cs db.

(** How many of the calls are calls of [next_invoice_no]. *)
Definition allocations (cs : list call) : Z :=
  Z.of_nat (length (List.filter
    (fun c => match c with Call_next_invoice_no _ => true | _ => false end) cs)).

(** [InvoiceApp.build_filters]: the search boxes as a dictionary; every
    entry but the type is stripped. *)
Definition build_filters
    (type_var customer_search inv_search date_from date_to : string)
    : gmap string string :=
  <["type" := type_var]>
  (<["customer" := Py.strip customer_search]>
  (<["invoice_no" := Py.strip inv_search]>
  (<["date_from" := Py.strip date_from]>
  (<["date_to" := Py.strip date_to]> ∅)))).

(** [InvoiceApp.load_invoices]: the rows put into the tree view. *)
Definition load_invoices (sql_date : string -> option string) (db : DB)
    (type_var customer_search inv_search date_from date_to : string)
    : list Summary.t :=
  list_invoices sql_date db
    (Some (build_filters type_var customer_search inv_search date_from date_to)).

(** The widgets of [InvoiceEditor] that [save] reads. *)
Record Form : Type := mkForm {
  invoice_no_var : string;
  date_var : string;
  type_var : string;
  customer_var : string;
  items_txt : string;        (* self.items_txt.get('1.0', END) *)
  total_var : string;
  notes_txt : string         (* self.notes_txt.get('1.0', END) *)
}.

(** The message box [save] ends with. *)
Inductive save_result : Type :=
  | Invalid_total      (* showerror 'Invalid total' *)
  | Missing_fields     (* showerror 'Missing fields' *)
  | Saved              (* showinfo 'Saved' *)
  | Could_not_save.    (* showerror 'Error': sqlite3.IntegrityError *)

Section Editor.

(** [float(s)] for non-empty text: the number, or [None] for ValueError. *)
Variable py_float : string -> option spec_float.

(** [float(self.total_var.get().strip() or 0.0)]. *)
Definition save_total (f : Form) : option spec_float :=
  match Py.strip (total_var f) with
  | EmptyString => Some (S754_zero false)
  | s => py_float s
  end.

(** [InvoiceEditor.save] with [self.invoice_id = invoice_id]; [None] is a
    new invoice.  [if self.invoice_id:] is false for [None] and for 0. *)
Definition save (invoice_id : option Z) (f : Form) (db : DB)
    : save_result * DB :=
  let inv_no := Py.strip (invoice_no_var f) in
  let date := Py.strip (date_var f) in
  let itype := Py.strip (type_var f) in
  let customer := Py.strip (customer_var f) in
  let items := Py.strip (items_txt f) in
  match save_total f with
  | None => (Invalid_total, db)
  | Some total =>
      let notes := Py.strip (notes_txt f) in
      if bool_decide (inv_no = "") || bool_decide (date = "")
         || bool_decide (itype = "") || bool_decide (customer = "")
      then (Missing_fields, db)
      else
        let attempt : result unit * DB :=
          match invoice_id with
          | Some id_ =>
              if bool_decide (id_ = 0) then
                match add_invoice inv_no date itype customer items total
                                  notes db with
                | (Ok _, db') => (Ok tt, db')
                | (Raise e, db') => (Raise e, db')
                end
              else update_invoice id_ inv_no date itype customer items total
                                  notes db
          | None =>
              match add_invoice inv_no date itype customer items total
                                notes db with
              | (Ok _, db') => (Ok tt, db')
              | (Raise e, db') => (Raise e, db')
              end
          end in
        match attempt with
        | (Ok _, db') => (Saved, db')
        | (Raise _, db') => (Could_not_save, db')
        end
  end.

End Editor.

(** The message box [insert_sample] ends with. *)
Inductive sample_result : Type :=
  | Inserted                       (* showinfo 'Inserted' *)
  | Sample_error (e : Py.exn).     (* showerror 'Error', str(e) *)

(** [for x in xs: body(x)]. *)
Fixpoint for_in {A : Type} (xs : list A) (body : A -> M unit) : M unit :=
  match xs with
  | [] => mret tt
  | x :: xs' => body x;; for_in xs' body
  end.

Section Sample.

(** [datetime.now().strftime('%Y-%m-%d')] as read in iteration [i]. *)
Variable today : Z -> string.

Definition sample_notes : string := "Sample invoice created for testing".

(** The body of the loop of [insert_sample]. *)
Definition insert_sample_body (i : Z) : M unit :=
  inv_no ← next_invoice_no "SAMPLE";
  let date := today i in
  let itype := if i mod 2 =? 0 then "Outward" else "Inward" in
  let customer := "Customer " ++ Py.str (i + 1) in
  add_invoice inv_no date itype customer sample_items three_hundred
              sample_notes;;
  mret tt.

(** [InvoiceApp.insert_sample]: [range(3)], and [except Exception]. *)
Definition insert_sample (db : DB) : sample_result * DB :=
  match for_in [0; 1; 2] insert_sample_body db with
  | (Ok _, db') => (Inserted, db')
  | (Raise e, db') => (Sample_error e, db')
  end.

(** The row iteration [i] stores when the counter read [v] before the
    loop and [rowid] is the id the row gets. *)
Definition sample_row (v rowid i : Z) : Invoice.t :=
  Invoice.mk rowid ("SAMPLE-" ++ Py.format_05d (v + 1 + i)) (today i)
             (if i mod 2 =? 0 then "Outward" else "Inward")
             ("Customer " ++ Py.str (i + 1)) sample_items
             (Some three_hundred) sample_notes.

End Sample.

(** [s.split(sep)] for a one-character separator. *)
Fixpoint split (sep : ascii) (s : string) : list string :=
  match s with
  | EmptyString => [EmptyString]
  | String c s' =>
      if Ascii.eqb c sep then EmptyString :: split sep s'
      else match split sep s' with
           | x :: xs => String c x :: xs
           | [] => [String c EmptyString]
           end
  end.

(** How often the character [c] occurs in [s]. *)
Fixpoint count_char (c : ascii) (s : string) : nat :=
  match s with
  | EmptyString => 0
  | String a s' => (if Ascii.eqb a c then 1 else 0) + count_char c s'
  end.

(** [text.split('\n') if text else []]: the entries [generate_pdf_invoice]
    draws for the items and for the notes. *)
Definition pdf_lines (text : string) : list string :=
  match text with
  | EmptyString => []
  | _ => split csv.LF text
  end.

(** ** More sample data *)

(** The second row of [two_db]. *)
Definition beta_row : Invoice.t :=
  Invoice.mk 2 "SAMPLE-00002" "2024-02-05" "Inward" "Customer 1" sample_items
             (Some three_hundred) "Sample invoice created for testing".

(** A reading of [float()] for the examples: it knows the text "50". *)
Definition float_of_fifty (s : string) : option spec_float :=
  if String.eqb s "50" then Some fifty else None.

Definition bolt_form : Form :=
  mkForm " INV-00007 " "2024-03-01" "Inward" " Bolt & Co " "Nuts x10"
         "50" "".

(** A clock that reads the same day in every iteration. *)
Definition march_first (i : Z) : string := "2024-03-01".

(** A database in which the second sample number is already in use. *)
Definition clash_db : DB :=
  snd (add_invoice "SAMPLE-00002" "2024-02-05" "Inward" "Customer 1"
                   sample_items three_hundred sample_notes init).

Definition clash_row : Invoice.t :=
  Invoice.mk 1 "SAMPLE-00002" "2024-02-05" "Inward" "Customer 1" sample_items
             (Some three_hundred) sample_notes.


(** [os.linesep] on a POSIX system. *)
Definition posix_linesep : string := String csv.LF "".



(** * Properties *)

(** ** Small steps of the state monad *)

Ltac run_M :=
  unfold mbind, M_bind, mret, M_ret, get_db, put_db, raise; simpl.

(** ** Table [invoices]: row ids and the UNIQUE constraint *)

Lemma new_rowid_fresh rows r :
  r ∈ rows → Invoice.id r < new_rowid rows.
Proof.
  destruct rows as [|r0 rows]; [by intros ?%elem_of_nil|].
  simpl. intros Hr.
  assert (H0 : ∀ (l : list Invoice.t) (z : Z),
    z ≤ foldr (λ r m, Z.max (Invoice.id r) m) z l).
  { induction l as [|x l IH]; simpl; intros; [lia|]. specialize (IH z). lia. }
  assert (H1 : ∀ (l : list Invoice.t) (z : Z) x, x ∈ l →
    Invoice.id x ≤ foldr (λ r m, Z.max (Invoice.id r) m) z l).
  { induction l as [|y l IH]; simpl; intros z x Hx.
    - by apply elem_of_nil in Hx.
    - apply elem_of_cons in Hx as [->|Hx]; [lia|].
      specialize (IH z x Hx). lia. }
  apply elem_of_cons in Hr as [->|Hr].
  - specialize (H0 rows (Invoice.id r0)). lia.
  - specialize (H1 rows (Invoice.id r0) r Hr). lia.
Qed.

Lemma find_id_None rows i :
  List.find (λ r, bool_decide (Invoice.id r = i)) rows = None ↔
  ∀ r, r ∈ rows → Invoice.id r ≠ i.
Proof.
  induction rows as [|x rows IH]; simpl.
  - split; [intros _ r ?%elem_of_nil; done|done].
  - case_bool_decide as Hx.
    + split; [done|]. intros H. exfalso. apply (H x); [left|done].
    + rewrite IH. split.
      * intros H r [->|Hr]%elem_of_cons; auto.
      * intros H r Hr. apply H. by right.
Qed.

Lemma find_id_app rows rows' i :
  List.find (λ r, bool_decide (Invoice.id r = i)) (rows ++ rows') =
  match List.find (λ r, bool_decide (Invoice.id r = i)) rows with
  | Some r => Some r
  | None => List.find (λ r, bool_decide (Invoice.id r = i)) rows'
  end.
Proof. induction rows as [|x rows IH]; simpl; [done|]. by case_bool_decide. Qed.

Lemma invoice_no_taken_None_false rows no :
  invoice_no_taken rows None no = false ↔
  ∀ r, r ∈ rows → Invoice.invoice_no r ≠ no.
Proof.
  unfold invoice_no_taken. induction rows as [|x rows IH]; simpl.
  - split; [intros _ r ?%elem_of_nil; done|done].
  - rewrite orb_false_iff, IH. split.
    + intros [H1 H2] r [->|Hr]%elem_of_cons; [|by auto].
      rewrite andb_false_iff in H1. destruct H1 as [H1|H1].
      * by apply bool_decide_eq_false in H1.
      * done.
    + intros H. split; [|intros r Hr; apply H; by right].
      apply andb_false_iff. left. apply bool_decide_eq_false. apply H. by left.
Qed.

(** Python's [==] on floats ([SFeqb]) holds between a number and itself. *)
Lemma SFeqb_refl x : x ≠ S754_nan → SFeqb x x = true.
Proof.
  intros Hnan. destruct x as [s|s| |s m e]; try done;
    unfold SFeqb, SFcompare; try by destruct s.
  rewrite Z.compare_refl, Pos.compare_cont_refl. by destruct s.
Qed.

(** C1. For every invoice input that [add_invoice] accepts (the
    [invoice_no] is not in use yet) whose total is a number, [add_invoice]
    returns an id and [get_invoice] with that id yields the row with that
    id whose text fields are exactly the values supplied and whose total is
    a float equal ([==]) to the one supplied: the very same float, except
    that the negative zero is read back as [0.0]. *)
Theorem add_invoice_then_get db invoice_no date itype customer items_text total notes :
  (∀ r, r ∈ invoices db → Invoice.invoice_no r ≠ invoice_no) →
  total ≠ S754_nan →
  ∃ id_ db' stored,
    add_invoice invoice_no date itype customer items_text total notes db
      = (Ok id_, db') ∧
    get_invoice db' id_
      = Some (Invoice.mk id_ invoice_no date itype customer items_text
                         (Some stored) notes) ∧
    SFeqb stored total = true ∧
    (total ≠ S754_zero true → stored = total) ∧
    (total = S754_zero true → stored = S754_zero false).
Proof.
  intros Hfree Hnan. apply invoice_no_taken_None_false in Hfree.
  unfold add_invoice, mbind, M_bind, get_db, put_db, mret, M_ret. simpl.
  rewrite Hfree.
  assert (∃ stored, SQLite.bind_double total = Some stored ∧
            SFeqb stored total = true ∧
            (total ≠ S754_zero true → stored = total) ∧
            (total = S754_zero true → stored = S754_zero false))
    as (stored & -> & Heq & Hsame & Hzero).
  { destruct total as [[]|s| |s m e]; try done; simpl; eexists;
      (split; [reflexivity|]); (split; [|done]);
      try done; by apply SFeqb_refl. }
  eexists _, _, stored. split; [reflexivity|]. split; [|done].
  unfold get_invoice. simpl. rewrite find_id_app.
  destruct (List.find _ (invoices db)) as [r|] eqn:Hf.
  - apply find_some in Hf as [Hin Hid]. apply bool_decide_eq_true in Hid.
    apply list_elem_of_In, new_rowid_fresh in Hin. lia.
  - simpl. by rewrite bool_decide_eq_true_2 by done.
Qed.

(** The same [invoice_no] is refused, whatever the other fields are. *)
Lemma invoice_no_taken_elem rows r :
  r ∈ rows → invoice_no_taken rows None (Invoice.invoice_no r) = true.
Proof.
  intros Hr. destruct (invoice_no_taken rows None _) eqn:E; [done|].
  exfalso. by eapply invoice_no_taken_None_false.
Qed.

(** C3. When some stored invoice already has the [invoice_no],
    [add_invoice] raises [IntegrityError] (the UNIQUE constraint) and the
    database is left exactly as it was: nothing is written, and every id
    that [get_invoice] found before is still found with the same row. *)
Theorem add_invoice_duplicate db r date itype customer items_text total notes :
  r ∈ invoices db →
  add_invoice (Invoice.invoice_no r) date itype customer items_text
              total notes db
    = (Raise Py.IntegrityError, db)
  ∧ ∀ id_ row,
      get_invoice db id_ = Some row →
      get_invoice (snd (add_invoice (Invoice.invoice_no r) date itype customer
                                    items_text total notes db)) id_
        = Some row.
Proof.
  intros Hr.
  assert (E : add_invoice (Invoice.invoice_no r) date itype customer
                items_text total notes db = (Raise Py.IntegrityError, db)).
  { unfold add_invoice. run_M. by rewrite invoice_no_taken_elem. }
  split; [exact E|]. intros id_ row Hrow. by rewrite E.
Qed.

Lemma existsb_id_find rows i :
  existsb (λ r, bool_decide (Invoice.id r = i)) rows
  = bool_decide (is_Some (List.find (λ r, bool_decide (Invoice.id r = i)) rows)).
Proof.
  induction rows as [|x rows IH]; simpl.
  - done.
  - by destruct (bool_decide (Invoice.id x = i)).
Qed.

(** C7. [update_invoice] with an id that no stored invoice has raises
    nothing and returns the database unchanged: same rows, same count. *)
Theorem update_invoice_missing db id_ invoice_no date itype customer
    items_text total notes :
  get_invoice db id_ = None →
  update_invoice id_ invoice_no date itype customer items_text total notes db
    = (Ok tt, db).
Proof.
  intros Hget. unfold update_invoice. run_M.
  rewrite existsb_id_find. unfold get_invoice in Hget. rewrite Hget.
  rewrite bool_decide_eq_false_2; [done|]. by intros [? ?].
Qed.

Lemma filter_id_absent rows i :
  (∀ r, r ∈ rows → Invoice.id r ≠ i) →
  List.filter (λ r, negb (bool_decide (Invoice.id r = i))) rows = rows.
Proof.
  induction rows as [|x rows IH]; simpl; intros H; [done|].
  rewrite bool_decide_eq_false_2 by (apply H; by left). simpl.
  f_equal. apply IH. intros r Hr. apply H. by right.
Qed.

Lemma filter_id_present rows i r :
  NoDup (Invoice.id <$> rows) →
  List.find (λ r, bool_decide (Invoice.id r = i)) rows = Some r →
  rows ≡ₚ r :: List.filter (λ r, negb (bool_decide (Invoice.id r = i))) rows.
Proof.
  induction rows as [|x rows IH]; simpl; [done|].
  intros [Hx Hnd]%NoDup_cons.
  case_bool_decide as Hid; simpl.
  - intros [= ->]. rewrite filter_id_absent; [done|].
    intros r' Hr' Heq. apply Hx. rewrite Hid, <- Heq.
    apply list_elem_of_fmap. eauto.
  - intros Hf. rewrite (IH Hnd Hf) at 1. apply Permutation_swap.
Qed.

Lemma find_filter_id rows i j :
  List.find (λ r, bool_decide (Invoice.id r = j))
            (List.filter (λ r, negb (bool_decide (Invoice.id r = i))) rows)
  = if bool_decide (j = i) then None
    else List.find (λ r, bool_decide (Invoice.id r = j)) rows.
Proof.
  induction rows as [|x rows IH]; simpl; [by case_bool_decide|].
  destruct (bool_decide (Invoice.id x = i)) eqn:Ei; simpl.
  - apply bool_decide_eq_true in Ei. rewrite IH.
    case_bool_decide as Hj; [done|].
    rewrite bool_decide_eq_false_2; [done|congruence].
  - rewrite IH. apply bool_decide_eq_false in Ei.
    case_bool_decide as Hj; [|done].
    rewrite bool_decide_eq_false_2; [done|congruence].
Qed.

(** C8. [delete_invoice] never raises and never touches [meta].  With an
    id that no stored invoice has, the database is unchanged (same rows,
    same count).  With the id of a stored invoice, exactly that row is
    removed: the old table is the removed row plus the new table, the id is
    no longer found, and every other id still yields its row. *)
Theorem delete_invoice_spec db id_ :
  primary_key db →
  ∃ db',
    delete_invoice id_ db = (Ok tt, db') ∧ meta db' = meta db ∧
    match get_invoice db id_ with
    | None => db' = db
    | Some r =>
        invoices db ≡ₚ r :: invoices db' ∧
        length (invoices db) = S (length (invoices db')) ∧
        get_invoice db' id_ = None ∧
        ∀ j, j ≠ id_ → get_invoice db' j = get_invoice db j
    end.
Proof.
  intros Hpk. unfold delete_invoice. run_M.
  eexists. split; [reflexivity|]. split; [done|].
  unfold get_invoice. simpl.
  destruct (List.find _ (invoices db)) as [r|] eqn:Hf.
  - pose proof (filter_id_present _ _ _ Hpk Hf) as Hperm.
    split; [done|]. split; [by rewrite Hperm at 1|].
    split.
    + rewrite find_filter_id. by rewrite bool_decide_eq_true_2.
    + intros j Hj. rewrite find_filter_id. by rewrite bool_decide_eq_false_2.
  - rewrite filter_id_absent; [by destruct db|].
    by apply find_id_None.
Qed.

(** ** Order of TEXT-or-NULL keys *)

Lemma string_compare_le_trans (a b c : string) :
  String.compare a b ≠ Gt → String.compare b c ≠ Gt → String.compare a c ≠ Gt.
Proof.
  revert b c. induction a as [|x a IH]; intros [|y b] [|z c]; simpl; try done.
  unfold Ascii.compare.
  destruct (N.compare_spec (N_of_ascii x) (N_of_ascii y)) as [E1|L1|G1];
    destruct (N.compare_spec (N_of_ascii y) (N_of_ascii z)) as [E2|L2|G2];
    destruct (N.compare_spec (N_of_ascii x) (N_of_ascii z)) as [E3|L3|G3];
    try done; try lia.
  apply IH.
Qed.

Lemma string_leb_trans (a b c : string) :
  String.leb a b = true → String.leb b c = true → String.leb a c = true.
Proof.
  unfold String.leb. intros H1 H2.
  pose proof (string_compare_le_trans a b c) as H.
  destruct (String.compare a b), (String.compare b c), (String.compare a c);
    try done; exfalso; by apply H.
Qed.

#[global] Instance key_le_trans : Transitive SQLite.key_le.
Proof.
  intros [a|] [b|] [c|]; simpl; try done. apply string_leb_trans.
Qed.

#[global] Instance key_le_total : Total SQLite.key_le.
Proof.
  intros [a|] [b|]; simpl; auto. apply String.leb_total.
Qed.

Section ListingFacts.

Variable sql_date : string → option string.

#[global] Instance date_desc_trans : Transitive (date_desc sql_date).
Proof. intros r1 r2 r3 H12 H23. unfold date_desc in *. by etrans. Qed.

#[global] Instance date_desc_total : Total (date_desc sql_date).
Proof. intros r1 r2. unfold date_desc. destruct (key_le_total
  (sql_date (Invoice.date r2)) (sql_date (Invoice.date r1))); auto. Qed.

(** What [list_invoices] returns: the projections of the stored rows that
    pass every condition. *)
Lemma elem_of_list_invoices db filters s :
  s ∈ list_invoices sql_date db filters ↔
  ∃ r, s = summary r ∧ r ∈ invoices db ∧
       where_ sql_date (build_conds (default ∅ filters)) r = true.
Proof.
  unfold list_invoices. rewrite list_elem_of_fmap.
  setoid_rewrite merge_sort_Permutation.
  setoid_rewrite list_elem_of_In. setoid_rewrite filter_In. done.
Qed.

Lemma where_elem conds r c :
  where_ sql_date conds r = true → c ∈ conds →
  eval_cond sql_date r c = Some true.
Proof.
  unfold where_. rewrite forallb_forall. intros H Hc.
  apply list_elem_of_In, H in Hc. by apply bool_decide_eq_true in Hc.
Qed.

Lemma active_Some filters k v :
  filters !! k = Some v → v ≠ "" → active filters k = Some v.
Proof.
  intros Hk Hv. unfold active. rewrite Hk. by rewrite bool_decide_eq_false_2.
Qed.


End ListingFacts.

(** C10. [list_invoices] with [filters=None] returns the same list as with
    the empty dictionary, and that list holds the projection of every stored
    invoice, each once: no condition is applied. *)
Theorem list_invoices_no_filter (sql_date : string → option string) db :
  list_invoices sql_date db None = list_invoices sql_date db (Some ∅)
  ∧ list_invoices sql_date db None ≡ₚ summary <$> invoices db
  ∧ ∀ r, r ∈ invoices db → summary r ∈ list_invoices sql_date db None.
Proof.
  split; [done|].
  assert (Hp : list_invoices sql_date db None ≡ₚ summary <$> invoices db).
  { unfold list_invoices. simpl. rewrite merge_sort_Permutation.
    replace (List.filter _ (invoices db)) with (invoices db); [done|].
    induction (invoices db) as [|x l IH]; simpl; [done|]. by rewrite <- IH. }
  split; [done|]. intros r Hr. rewrite Hp. by apply list_elem_of_fmap_2.
Qed.


(** C5. With both date bounds given, every row [list_invoices] returns
    has a date inside the inclusive range: its [date()] value and those of
    both bounds exist and satisfy from <= date <= to.  When the lower bound
    is later than the upper bound, the result is empty. *)
Theorem list_invoices_date_range (sql_date : string → option string)
    db (filters : gmap string string) (date_from date_to : string) :
  filters !! "date_from" = Some date_from → date_from ≠ "" →
  filters !! "date_to" = Some date_to → date_to ≠ "" →
  (∀ s, s ∈ list_invoices sql_date db (Some filters) →
     ∃ d lo hi,
       sql_date (Summary.date s) = Some d ∧
       sql_date date_from = Some lo ∧ sql_date date_to = Some hi ∧
       String.leb lo d = true ∧ String.leb d hi = true)
  ∧ (SQLite.text_le (sql_date date_from) (sql_date date_to) = Some false →
     list_invoices sql_date db (Some filters) = []).
Proof.
  intros Hf Hfne Ht Htne.
  assert (Hin : ∀ s, s ∈ list_invoices sql_date db (Some filters) →
     ∃ d lo hi,
       sql_date (Summary.date s) = Some d ∧
       sql_date date_from = Some lo ∧ sql_date date_to = Some hi ∧
       String.leb lo d = true ∧ String.leb d hi = true).
  { intros s (r & -> & Hr & Hw)%elem_of_list_invoices. simpl in Hw.
    pose proof (where_elem sql_date _ r (DateFrom date_from) Hw) as H1.
    pose proof (where_elem sql_date _ r (DateTo date_to) Hw) as H2.
    unfold build_conds in H1, H2.
    rewrite (active_Some _ _ _ Hf Hfne), (active_Some _ _ _ Ht Htne) in H1, H2.
    rewrite !elem_of_app in H1, H2.
    specialize (H1 ltac:(do 3 right; left; by left)).
    specialize (H2 ltac:(do 4 right; by left)).
    simpl in H1, H2 |- *. unfold SQLite.text_le in H1, H2.
    destruct (sql_date date_from) as [lo|]; [|done].
    destruct (sql_date (Invoice.date r)) as [d|]; [|done].
    destruct (sql_date date_to) as [hi|]; [|done].
    exists d, lo, hi. repeat split; congruence. }
  split; [exact Hin|].
  intros Hgt. apply elem_of_nil_inv. intros s Hs.
  destruct (Hin s Hs) as (d & lo & hi & _ & Hlo & Hhi & H1 & H2).
  rewrite Hlo, Hhi in Hgt. simpl in Hgt.
  rewrite (string_leb_trans _ _ _ H1 H2) in Hgt. done.
Qed.

(** ** LIKE with the pattern ['%' + v + '%'] *)

Lemma patternCompare_percent_step (p t : string) :
  SQLite.patternCompare (String "%" p) t
  = SQLite.patternCompare p t
    || match t with
       | String _ t' => SQLite.patternCompare (String "%" p) t'
       | EmptyString => false
       end.
Proof. by destruct t. Qed.

Lemma patternCompare_percent (t : string) :
  SQLite.patternCompare "%" t = true.
Proof.
  induction t as [|c t IH]; [done|].
  rewrite patternCompare_percent_step, IH. apply orb_true_r.
Qed.

Lemma patternCompare_plain (v t : string) :
  plain v = true →
  SQLite.patternCompare (v ++ "%") t = prefix_nocase v t.
Proof.
  revert t. induction v as [|c v IH]; intros t Hv.
  - simpl. rewrite patternCompare_percent. by destruct t.
  - simpl in Hv. apply andb_true_iff in Hv as [Hc Hv].
    apply andb_true_iff in Hc as [Hc _].
    apply andb_true_iff in Hc as [Hc1 Hc2].
    apply negb_true_iff in Hc1, Hc2.
    simpl. rewrite Hc1.
    destruct t as [|d t]; [done|]. rewrite Hc2. by rewrite IH.
Qed.

Lemma patternCompare_contains (v t : string) :
  plain v = true →
  SQLite.patternCompare (String "%" (v ++ "%")) t = contains_nocase v t.
Proof.
  intros Hv. induction t as [|d t IH].
  - rewrite patternCompare_percent_step, patternCompare_plain by done.
    simpl. by rewrite orb_false_r.
  - rewrite patternCompare_percent_step, IH, patternCompare_plain by done.
    done.
Qed.

Lemma cstr_plain (v : string) :
  plain v = true → SQLite.cstr (v ++ "%") = v ++ "%".
Proof.
  induction v as [|c v IH]; [done|]. simpl. intros Hv.
  apply andb_true_iff in Hv as [Hc Hv]. apply andb_true_iff in Hc as [_ Hc].
  apply negb_true_iff in Hc. rewrite Hc. by rewrite IH.
Qed.

(** For a plain [v], [text LIKE '%v%'] says that [v] occurs in [text] (read
    up to its first NUL) when ASCII case is ignored. *)
Lemma like_contains (v text : string) :
  plain v = true →
  SQLite.like text ("%" ++ v ++ "%") = contains_nocase v (SQLite.cstr text).
Proof.
  intros Hv. unfold SQLite.like.
  change ("%" ++ v ++ "%") with (String "%" (v ++ "%")).
  cbn [SQLite.cstr]. change (Ascii.eqb "%" "000") with false. cbv iota.
  rewrite cstr_plain by done. by apply patternCompare_contains.
Qed.

Lemma filter_ext_bool {A} (f g : A → bool) (l : list A) :
  (∀ x, f x = g x) → List.filter f l = List.filter g l.
Proof. intros H. induction l as [|x l IH]; simpl; [done|]. by rewrite H, IH. Qed.

(** C4 (as amended). With the filter type = "Inward" (or any other
    non-empty type), [list_invoices] returns only rows whose stored type is
    exactly that text.  With a non-empty customer filter [v] that has no
    NUL and none of the LIKE wildcards [%] and [_], and no other filter,
    [list_invoices] returns exactly the stored invoices whose customer
    (read up to its first NUL) contains [v] as a substring when ASCII
    letters are compared without case. *)
Theorem list_invoices_type_customer (sql_date : string → option string)
    db (ty v : string) :
  ty ≠ "" → v ≠ "" → plain v = true →
  (∀ (filters : gmap string string) s,
     filters !! "type" = Some ty →
     s ∈ list_invoices sql_date db (Some filters) → Summary.type s = ty)
  ∧ list_invoices sql_date db (Some {[ "customer" := v ]})
    ≡ₚ summary <$> List.filter
         (λ r, contains_nocase v (SQLite.cstr (Invoice.customer r)))
         (invoices db).
Proof.
  intros Htyne Hne Hplain. split.
  - intros filters s Hty (r & -> & Hr & Hw)%elem_of_list_invoices.
    simpl in Hw.
    pose proof (where_elem sql_date _ r (TypeEq ty) Hw) as H.
    unfold build_conds in H. rewrite (active_Some _ _ _ Hty Htyne) in H.
    specialize (H ltac:(apply elem_of_app; left; by left)).
    simpl in H. injection H as H. by apply bool_decide_eq_true in H.
  - unfold list_invoices. rewrite merge_sort_Permutation.
    apply fmap_Permutation. simpl.
    unfold build_conds, active.
    rewrite lookup_singleton_eq, !lookup_singleton_ne by done.
    rewrite bool_decide_eq_false_2 by done. simpl.
    erewrite filter_ext_bool; [done|]. intros r. simpl.
    rewrite andb_true_r, like_contains by done.
    by destruct (contains_nocase _ _).
Qed.

(** ** Decimal text of the counter: [int(str(n))] and [int(f"{n:05d}")] *)

Lemma iter_zero_digits (k : nat) (u : Decimal.uint) :
  Nat.iter k (String "0") (NilEmpty.string_of_uint u)
  = NilEmpty.string_of_uint (Nat.iter k Decimal.D0 u).
Proof. induction k as [|k IH]; simpl; [done|]. by rewrite IH. Qed.

Lemma of_uint_iter_zero (k : nat) (u : Decimal.uint) :
  Z.of_uint (Nat.iter k Decimal.D0 u) = Z.of_uint u.
Proof. induction k as [|k IH]; simpl; [done|]. by rewrite <- IH. Qed.

Lemma iter_zero_nonnil (k : nat) (u : Decimal.uint) :
  u ≠ Decimal.Nil → Nat.iter k Decimal.D0 u ≠ Decimal.Nil.
Proof. by destruct k. Qed.

Lemma int_rstrip_digits (u : Decimal.uint) :
  Py.int_rstrip (NilEmpty.string_of_uint u) = NilEmpty.string_of_uint u.
Proof.
  induction u; simpl; [done|..]; rewrite IHu;
    by destruct (NilEmpty.string_of_uint u).
Qed.

Lemma literal_digits_digits (u : Decimal.uint) :
  Py.literal_digits true (NilEmpty.string_of_uint u)
  = Some (NilEmpty.string_of_uint u).
Proof. induction u; simpl; [done|..]; by rewrite IHu. Qed.

Lemma int_digits (u : Decimal.uint) :
  u ≠ Decimal.Nil →
  Py.int (NilEmpty.string_of_uint u) = Some (Z.of_uint u)
  ∧ Py.int (String "-" (NilEmpty.string_of_uint u)) = Some (- Z.of_uint u).
Proof.
  intros Hu. unfold Py.int. split.
  - replace (Py.int_lstrip (NilEmpty.string_of_uint u))
      with (NilEmpty.string_of_uint u) by (by destruct u).
    rewrite int_rstrip_digits.
    destruct u; [done|..]; simpl;
      rewrite literal_digits_digits; simpl; by rewrite NilEmpty.usu.
  - change (Py.int_lstrip (String "-" ?s)) with (String "-" s).
    cbn [Py.int_rstrip]. rewrite int_rstrip_digits.
    change (Py.is_int_space "-") with false. cbv iota.
    destruct u; [done|..]; simpl;
      rewrite literal_digits_digits; simpl; by rewrite NilEmpty.usu.
Qed.

Lemma str_cases (n : Z) :
  Py.str n
  = match n with
    | 0 => "0"
    | Z.pos p => NilEmpty.string_of_uint (Pos.to_uint p)
    | Z.neg p => String "-" (NilEmpty.string_of_uint (Pos.to_uint p))
    end.
Proof.
  unfold Py.str. destruct n as [|p|p]; simpl; [done|..];
    pose proof (Unsigned.to_uint_nonnil p); by destruct (Pos.to_uint p).
Qed.

Lemma of_uint_to_uint (p : positive) : Z.of_uint (Pos.to_uint p) = Z.pos p.
Proof. unfold Z.of_uint. by rewrite Unsigned.of_to. Qed.

(** What is written to [meta] is read back as the same number. *)
Lemma int_str (n : Z) : Py.int (Py.str n) = Some n.
Proof.
  rewrite str_cases. destruct n as [|p|p]; [done|..].
  - rewrite (proj1 (int_digits _ (Unsigned.to_uint_nonnil p))).
    by rewrite of_uint_to_uint.
  - rewrite (proj2 (int_digits _ (Unsigned.to_uint_nonnil p))).
    by rewrite of_uint_to_uint.
Qed.

(** The zero-padded suffix reads back as the counter value. *)
Lemma int_format_05d (n : Z) : Py.int (Py.format_05d n) = Some n.
Proof.
  unfold Py.format_05d, Py.zfill. destruct n as [|p|p]; [done|..].
  - change (Z.pos p <? 0) with false. cbv iota.
    rewrite str_cases, iter_zero_digits.
    rewrite (proj1 (int_digits _ (iter_zero_nonnil _ _ (Unsigned.to_uint_nonnil p)))).
    by rewrite of_uint_iter_zero, of_uint_to_uint.
  - change (Z.neg p <? 0) with true. cbv iota.
    change (- Z.neg p) with (Z.pos p).
    rewrite str_cases, iter_zero_digits.
    rewrite (proj2 (int_digits _ (iter_zero_nonnil _ _ (Unsigned.to_uint_nonnil p)))).
    by rewrite of_uint_iter_zero, of_uint_to_uint.
Qed.

(** *** The width of the zero-padded suffix *)

Lemma length_digits (u : Decimal.uint) :
  String.length (NilEmpty.string_of_uint u) = N.to_nat (Unsigned.usize u).
Proof. induction u; simpl; [done|..]; rewrite IHu; lia. Qed.

Lemma all_digits_digits (u : Decimal.uint) :
  all_digits (NilEmpty.string_of_uint u) = true.
Proof. induction u; simpl; done. Qed.

(** The value of a digit string: the first digit counts for its power of
    ten. *)
Lemma of_uint_cons (u : Decimal.uint) :
  (Pos.of_uint u =
   Pos.of_uint (Unsigned.tl u)
   + Unsigned.hd u * 10 ^ Unsigned.usize (Unsigned.tl u))%N.
Proof.
  destruct u; [done|..]; rewrite Unsigned.of_uint_alt; unfold Decimal.rev;
    simpl Decimal.revapp; rewrite Unsigned.of_lu_revapp;
    by rewrite <- Unsigned.of_uint_alt.
Qed.

Lemma of_uint_upper (u : Decimal.uint) :
  (Pos.of_uint u < 10 ^ Unsigned.usize u)%N.
Proof.
  induction u; [done|..]; rewrite of_uint_cons; simpl Unsigned.tl;
    simpl Unsigned.hd; simpl Unsigned.usize; rewrite N.pow_succ_r'; lia.
Qed.

(** [str] of a positive number does not start with a zero. *)
Lemma to_uint_head (p : positive) :
  (1 <= Unsigned.hd (Pos.to_uint p))%N.
Proof.
  pose proof (Unsigned.to_of (Pos.to_uint p)) as H.
  rewrite Unsigned.of_to in H. simpl in H.
  pose proof (Unsigned.to_uint_nonzero p) as Hnz.
  pose proof (nzhead_nonzero (Pos.to_uint p)) as Hhd.
  unfold Decimal.unorm in H.
  destruct (Decimal.nzhead (Pos.to_uint p)) eqn:E;
    rewrite H; simpl; try lia; try done.
  by destruct (Hhd u).
Qed.

Lemma of_uint_lower (p : positive) :
  (10 ^ Unsigned.usize (Unsigned.tl (Pos.to_uint p)) <= N.pos p)%N.
Proof.
  rewrite <- (Unsigned.of_to p). rewrite of_uint_cons.
  pose proof (to_uint_head p). nia.
Qed.

Lemma usize_tl (u : Decimal.uint) :
  u ≠ Decimal.Nil → Unsigned.usize u = N.succ (Unsigned.usize (Unsigned.tl u)).
Proof. by destruct u. Qed.

(** [str(n)] of a positive [n] has at most [k] digits exactly when
    [n < 10^k]. *)
Lemma length_str_pos (p : positive) (k : nat) :
  (String.length (NilEmpty.string_of_uint (Pos.to_uint p)) ≤ k)%nat
  ↔ Z.pos p < 10 ^ Z.of_nat k.
Proof.
  rewrite length_digits.
  pose proof (of_uint_upper (Pos.to_uint p)) as Hup.
  rewrite Unsigned.of_to in Hup.
  pose proof (of_uint_lower p) as Hlo.
  rewrite (usize_tl _ (Unsigned.to_uint_nonnil p)) in *.
  set (m := Unsigned.usize (Unsigned.tl (Pos.to_uint p))) in *.
  clearbody m.
  assert (Z.of_N (10 ^ N.of_nat k) = 10 ^ Z.of_nat k) as E
    by (rewrite N2Z.inj_pow; f_equal; lia).
  split.
  - intros Hk.
    assert (10 ^ N.succ m <= 10 ^ N.of_nat k)%N
      by (apply N.pow_le_mono_r; lia).
    lia.
  - intros Hk.
    assert (10 ^ m < 10 ^ N.of_nat k)%N as Hlt by lia.
    apply N.pow_lt_mono_r_iff in Hlt; lia.
Qed.

Lemma length_iter_zero (k : nat) (s : string) :
  String.length (Nat.iter k (String "0") s) = (k + String.length s)%nat.
Proof. induction k as [|k IH]; simpl; [done|]. by rewrite IH. Qed.

Lemma all_digits_iter_zero (k : nat) (s : string) :
  all_digits s = true → all_digits (Nat.iter k (String "0") s) = true.
Proof. intros Hs. induction k as [|k IH]; simpl; done. Qed.

(** The shape of [f"{n:05d}"]: it is at least five characters wide and
    exactly as wide as [str(n)] beyond that; only the digits 0-9 after the
    sign; five characters for every number of at most five characters. *)
Lemma format_05d_shape (n : Z) :
  String.length (Py.format_05d n)
  = Nat.max 5 (String.length (Py.str n))
  ∧ (0 ≤ n → all_digits (Py.format_05d n) = true)
  ∧ (n < 0 →
     ∃ ds, Py.format_05d n = String "-" ds ∧ all_digits ds = true)
  ∧ (-9999 ≤ n ≤ 99999 → String.length (Py.format_05d n) = 5%nat)
  ∧ (n < -9999 ∨ 99999 < n → Py.format_05d n = Py.str n).
Proof.
  unfold Py.format_05d, Py.zfill. destruct n as [|p|p].
  - repeat split; try done; lia.
  - change (Z.pos p <? 0) with false. cbv iota. rewrite str_cases.
    set (s := NilEmpty.string_of_uint (Pos.to_uint p)).
    pose proof (length_str_pos p 5) as H5. fold s in H5.
    change (10 ^ Z.of_nat 5) with 100000 in H5.
    rewrite length_iter_zero.
    split; [lia|]. split; [|split; [lia|split]].
    + intros _. apply all_digits_iter_zero, all_digits_digits.
    + intros [_ Hn]. apply Nat.le_antisymm; [|lia].
      assert (String.length s ≤ 5)%nat by (apply H5; lia). lia.
    + intros [Hn|Hn]; [lia|].
      assert (¬ (String.length s ≤ 5)%nat) by (rewrite H5; lia).
      by replace (5 - String.length s)%nat with 0%nat by lia.
  - change (Z.neg p <? 0) with true. cbv iota.
    change (- Z.neg p) with (Z.pos p). rewrite !str_cases.
    set (s := NilEmpty.string_of_uint (Pos.to_uint p)).
    pose proof (length_str_pos p 4) as H4. fold s in H4.
    change (10 ^ Z.of_nat 4) with 10000 in H4.
    cbn [String.length]. rewrite length_iter_zero.
    split; [lia|]. split; [lia|split; [|split]].
    + intros _. eexists. split; [done|].
      apply all_digits_iter_zero, all_digits_digits.
    + intros [Hn _].
      assert (String.length s ≤ 4)%nat by (apply H4; lia). lia.
    + intros [Hn|Hn]; [|lia].
      assert (¬ (String.length s ≤ 4)%nat) by (rewrite H4; lia).
      by replace (4 - String.length s)%nat with 0%nat by lia.
Qed.

Lemma strip_prefix_app (p s : string) : strip_prefix p (p ++ s) = Some s.
Proof.
  induction p as [|a p IH]; simpl; [by destruct s|].
  by rewrite Ascii.eqb_refl.
Qed.

Lemma string_app_assoc (a b c : string) : (a ++ b) ++ c = a ++ b ++ c.
Proof.
  induction a as [|x a IH]; [done|].
  change (String x ((a ++ b) ++ c) = String x (a ++ b ++ c)). by rewrite IH.
Qed.

Lemma numeric_suffix_format (prefix : string) (n : Z) :
  numeric_suffix prefix (prefix ++ "-" ++ Py.format_05d n) = Some n.
Proof.
  unfold numeric_suffix.
  rewrite <- (string_app_assoc prefix "-" (Py.format_05d n)), strip_prefix_app.
  apply int_format_05d.
Qed.

(** ** next_invoice_no *)

Lemma next_invoice_no_step (prefix : string) db (text : string) (v : Z) :
  meta db !! last_invoice = Some text → Py.int text = Some v →
  next_invoice_no prefix db
  = (Ok (prefix ++ "-" ++ Py.format_05d (v + 1)),
     mkDB (invoices db) (<[last_invoice := Py.str (v + 1)]> (meta db))).
Proof.
  intros Htext Hv. unfold next_invoice_no. run_M. by rewrite Htext, Hv.
Qed.

Lemma next_invoice_nos_run (prefixes : list string) db (text : string) (v : Z) :
  meta db !! last_invoice = Some text → Py.int text = Some v →
  ∃ nos db',
    next_invoice_nos prefixes db = (Ok nos, db') ∧
    invoices db' = invoices db ∧
    (∃ text', meta db' !! last_invoice = Some text' ∧
              Py.int text' = Some (v + Z.of_nat (length prefixes))) ∧
    length nos = length prefixes ∧
    ∀ (i : nat) prefix no,
      prefixes !! i = Some prefix → nos !! i = Some no →
      no = prefix ++ "-" ++ Py.format_05d (v + 1 + Z.of_nat i).
Proof.
  revert db text v.
  induction prefixes as [|p ps IH]; intros db text v Htext Hv.
  - exists [], db. simpl. rewrite Z.add_0_r. repeat split; try done. eauto.
  - pose proof (next_invoice_no_step p db text v Htext Hv) as Hstep.
    set (db1 := mkDB (invoices db)
                     (<[last_invoice := Py.str (v + 1)]> (meta db))) in *.
    destruct (IH db1 (Py.str (v + 1)) (v + 1))
      as (nos & db' & Hrun & Hinv & (text' & Hmeta & Hint) & Hlen & Hnos).
    { subst db1. simpl. apply lookup_insert_eq. }
    { apply int_str. }
    exists ((p ++ "-" ++ Py.format_05d (v + 1)) :: nos), db'.
    split; [|split; [|split; [|split]]].
    + cbn [next_invoice_nos]. unfold mbind, M_bind at 1. rewrite Hstep.
      unfold mbind, M_bind at 1. rewrite Hrun. done.
    + by rewrite Hinv.
    + exists text'. split; [done|]. rewrite Hint. f_equal. simpl length. lia.
    + simpl. by rewrite Hlen.
    + intros [|i] prefix no Hp Hn; simpl in Hp, Hn.
      * injection Hp as <-. injection Hn as <-. by rewrite Z.add_0_r.
      * rewrite (Hnos i prefix no Hp Hn). do 3 f_equal. lia.
Qed.

(** C2. When the counter row holds text that reads as the number [v]: one
    call of [next_invoice_no] with any prefix stores [str(v+1)], which reads
    back as [v+1], and returns the prefix, a dash and [v+1] zero-padded to
    five digits (more digits above 99999).  The padding is pinned by what
    the suffix is as a text, whatever the prefix: it reads as [v+1]; it is
    as wide as [str(v+1)] and at least five characters wide; it holds only
    digits after the sign; it is exactly five characters up to 99999 and
    [str(v+1)] itself, with no zero in front, above.  Consequently any [N]
    calls in a row, with any mix of prefixes, all succeed, leave the
    counter at [v+N], and their numeric suffixes are [v+1], [v+2], ...,
    [v+N]: strictly increasing, hence distinct. *)
Theorem next_invoice_no_spec db (text : string) (v : Z) :
  meta db !! last_invoice = Some text → Py.int text = Some v →
  (∀ prefix,
     next_invoice_no prefix db
     = (Ok (prefix ++ "-" ++ Py.format_05d (v + 1)),
        mkDB (invoices db) (<[last_invoice := Py.str (v + 1)]> (meta db)))
     ∧ Py.int (Py.str (v + 1)) = Some (v + 1))
  ∧ (∃ suffix,
       (∀ prefix,
          fst (next_invoice_no prefix db) = Ok (prefix ++ "-" ++ suffix)) ∧
       Py.int suffix = Some (v + 1) ∧
       String.length suffix = Nat.max 5 (String.length (Py.str (v + 1))) ∧
       (0 ≤ v + 1 → all_digits suffix = true) ∧
       (v + 1 < 0 → ∃ ds, suffix = String "-" ds ∧ all_digits ds = true) ∧
       (-9999 ≤ v + 1 ≤ 99999 → String.length suffix = 5%nat) ∧
       (v + 1 < -9999 ∨ 99999 < v + 1 → suffix = Py.str (v + 1)))
  ∧ ∀ prefixes, ∃ nos db',
      next_invoice_nos prefixes db = (Ok nos, db') ∧
      length nos = length prefixes ∧
      (∃ text', meta db' !! last_invoice = Some text' ∧
                Py.int text' = Some (v + Z.of_nat (length prefixes))) ∧
      (∀ (i : nat) prefix no,
         prefixes !! i = Some prefix → nos !! i = Some no →
         no = prefix ++ "-" ++ Py.format_05d (v + 1 + Z.of_nat i) ∧
         numeric_suffix prefix no = Some (v + 1 + Z.of_nat i)) ∧
      (∀ (i j : nat) p q a b m n, (i < j)%nat →
         prefixes !! i = Some p → nos !! i = Some a →
         prefixes !! j = Some q → nos !! j = Some b →
         numeric_suffix p a = Some m → numeric_suffix q b = Some n →
         m < n).
Proof.
  intros Htext Hv. split; [|split].
  - intros prefix. split; [by eapply next_invoice_no_step|apply int_str].
  - exists (Py.format_05d (v + 1)).
    split; [|split; [apply int_format_05d|apply format_05d_shape]].
    intros prefix. by rewrite (next_invoice_no_step prefix db text v).
  - intros prefixes.
    destruct (next_invoice_nos_run prefixes db text v Htext Hv)
      as (nos & db' & Hrun & _ & Hmeta & Hlen & Hnos).
    assert (Hsuf : ∀ (i : nat) prefix no,
      prefixes !! i = Some prefix → nos !! i = Some no →
      no = prefix ++ "-" ++ Py.format_05d (v + 1 + Z.of_nat i) ∧
      numeric_suffix prefix no = Some (v + 1 + Z.of_nat i)).
    { intros i prefix no Hp Hn. rewrite (Hnos i prefix no Hp Hn).
      split; [done|apply numeric_suffix_format]. }
    exists nos, db'. repeat split; try done; try (by eapply Hsuf).
    intros i j p q a b m n Hij Hp Ha Hq Hb Hm Hn.
    destruct (Hsuf i p a Hp Ha) as [_ Hm'].
    destruct (Hsuf j q b Hq Hb) as [_ Hn'].
    rewrite Hm in Hm'. rewrite Hn in Hn'. simplify_eq. lia.
Qed.

(** ** The CSV reader on the writer's output *)





#[local] Abbreviation RD := csv.mkReader.
#[local] Abbreviation excel := csv.lineterminator.

Section ReaderOnWriter.

Variable field_limit : Z.

#[local] Abbreviation fits f := (Z.of_nat (String.length f) ≤ field_limit).
























End ReaderOnWriter.


(** ** The PRIMARY KEY constraint is kept by every method *)

Lemma primary_key_init : primary_key init.
Proof. unfold primary_key. simpl. constructor. Qed.

Lemma primary_key_add_invoice db invoice_no date itype customer items_text
    total notes :
  primary_key db →
  primary_key (snd (add_invoice invoice_no date itype customer items_text
                                total notes db)).
Proof.
  unfold primary_key, add_invoice. run_M. intros Hpk.
  destruct (invoice_no_taken _ _ _); [done|]. simpl.
  rewrite fmap_app. apply NoDup_app. split; [done|]. split.
  - intros i (r & -> & Hr)%list_elem_of_fmap Hi. simpl in Hi.
    apply list_elem_of_singleton in Hi.
    apply new_rowid_fresh in Hr. lia.
  - simpl. apply NoDup_singleton.
Qed.

Lemma map_keeps_ids (f : Invoice.t → Invoice.t) (l : list Invoice.t) :
  (∀ r, Invoice.id (f r) = Invoice.id r) →
  Invoice.id <$> map f l = Invoice.id <$> l.
Proof.
  intros Hf. induction l as [|x l IH]; [done|].
  cbn [map fmap list_fmap]. f_equal; [apply Hf|apply IH].
Qed.

Lemma primary_key_update_invoice db id_ invoice_no date itype customer
    items_text total notes :
  primary_key db →
  primary_key (snd (update_invoice id_ invoice_no date itype customer
                                   items_text total notes db)).
Proof.
  unfold primary_key, update_invoice. run_M. intros Hpk.
  destruct (existsb _ _); [|done].
  destruct (invoice_no_taken _ _ _); [done|]. simpl.
  rewrite map_keeps_ids; [done|]. intros r. by case_bool_decide.
Qed.

Lemma primary_key_delete_invoice db id_ :
  primary_key db → primary_key (snd (delete_invoice id_ db)).
Proof.
  unfold primary_key, delete_invoice. run_M.
  induction (invoices db) as [|x l IH]; simpl; [done|].
  intros [Hx Hl]%NoDup_cons. destruct (negb _); simpl; [|by apply IH].
  apply NoDup_cons. split; [|by apply IH].
  intros (r & Hid & Hr)%list_elem_of_fmap. apply Hx.
  apply list_elem_of_fmap. exists r. split; [done|].
  apply list_elem_of_In in Hr. apply filter_In in Hr as [Hr _].
  by apply list_elem_of_In.
Qed.

(** ** The theorems at concrete inputs *)

Lemma add_invoice_then_get_witness :
  ∃ id_ db' stored,
    add_invoice "INV-00001" "2024-01-10" "Outward" "Acme" "Widget x2 - 50"
                fifty "" init = (Ok id_, db') ∧
    get_invoice db' id_
      = Some (Invoice.mk id_ "INV-00001" "2024-01-10" "Outward" "Acme"
                         "Widget x2 - 50" (Some stored) "") ∧
    SFeqb stored fifty = true ∧
    (fifty ≠ S754_zero true → stored = fifty) ∧
    (fifty = S754_zero true → stored = S754_zero false).
Proof.
  apply (add_invoice_then_get init "INV-00001" "2024-01-10" "Outward" "Acme"
           "Widget x2 - 50" fifty "").
  - intros r Hr. simpl in Hr. by apply elem_of_nil in Hr.
  - discriminate.
Defined.

Lemma acme_row_stored : acme_row ∈ invoices acme_db.
Proof. vm_compute. left. Defined.

Lemma add_invoice_duplicate_witness :
  add_invoice "INV-00001" "2024-03-01" "Inward" "Bolt" "" fifty "" acme_db
  = (Raise Py.IntegrityError, acme_db).
Proof.
  exact (proj1 (add_invoice_duplicate acme_db acme_row "2024-03-01" "Inward"
                  "Bolt" "" fifty "" acme_row_stored)).
Defined.

Lemma update_invoice_missing_witness :
  update_invoice 7 "INV-00009" "2024-03-01" "Inward" "Bolt" "" fifty "" acme_db
  = (Ok tt, acme_db).
Proof. apply update_invoice_missing. reflexivity. Defined.

Lemma primary_key_two_db : primary_key two_db.
Proof. do 2 apply primary_key_add_invoice. apply primary_key_init. Defined.

Lemma delete_invoice_spec_witness :
  ∃ db',
    delete_invoice 1 two_db = (Ok tt, db') ∧ meta db' = meta two_db ∧
    match get_invoice two_db 1 with
    | None => db' = two_db
    | Some r =>
        invoices two_db ≡ₚ r :: invoices db' ∧
        length (invoices two_db) = S (length (invoices db')) ∧
        get_invoice db' 1 = None ∧
        ∀ j, j ≠ 1 → get_invoice db' j = get_invoice two_db j
    end.
Proof. apply delete_invoice_spec. exact primary_key_two_db. Defined.

Lemma next_invoice_no_spec_witness :
  (∀ prefix,
     next_invoice_no prefix init
     = (Ok (prefix ++ "-" ++ Py.format_05d (0 + 1)),
        mkDB (invoices init) (<[last_invoice := Py.str (0 + 1)]> (meta init)))
     ∧ Py.int (Py.str (0 + 1)) = Some (0 + 1))
  ∧ (∃ suffix,
       (∀ prefix,
          fst (next_invoice_no prefix init) = Ok (prefix ++ "-" ++ suffix)) ∧
       Py.int suffix = Some (0 + 1) ∧
       String.length suffix = Nat.max 5 (String.length (Py.str (0 + 1))) ∧
       (0 ≤ 0 + 1 → all_digits suffix = true) ∧
       (0 + 1 < 0 → ∃ ds, suffix = String "-" ds ∧ all_digits ds = true) ∧
       (-9999 ≤ 0 + 1 ≤ 99999 → String.length suffix = 5%nat) ∧
       (0 + 1 < -9999 ∨ 99999 < 0 + 1 → suffix = Py.str (0 + 1)))
  ∧ ∀ prefixes, ∃ nos db',
      next_invoice_nos prefixes init = (Ok nos, db') ∧
      length nos = length prefixes ∧
      (∃ text', meta db' !! last_invoice = Some text' ∧
                Py.int text' = Some (0 + Z.of_nat (length prefixes))) ∧
      (∀ (i : nat) prefix no,
         prefixes !! i = Some prefix → nos !! i = Some no →
         no = prefix ++ "-" ++ Py.format_05d (0 + 1 + Z.of_nat i) ∧
         numeric_suffix prefix no = Some (0 + 1 + Z.of_nat i)) ∧
      (∀ (i j : nat) p q a b m n, (i < j)%nat →
         prefixes !! i = Some p → nos !! i = Some a →
         prefixes !! j = Some q → nos !! j = Some b →
         numeric_suffix p a = Some m → numeric_suffix q b = Some n →
         m < n).
Proof. apply (next_invoice_no_spec init "0" 0); reflexivity. Defined.

Lemma list_invoices_date_range_witness :
  let filters : gmap string string :=
    <["date_from" := "2024-01-01"]> {[ "date_to" := "2024-01-28" ]} in
  (∀ s, s ∈ list_invoices canonical_date two_db (Some filters) →
     ∃ d lo hi,
       canonical_date (Summary.date s) = Some d ∧
       canonical_date "2024-01-01" = Some lo ∧
       canonical_date "2024-01-28" = Some hi ∧
       String.leb lo d = true ∧ String.leb d hi = true)
  ∧ (SQLite.text_le (canonical_date "2024-01-01") (canonical_date "2024-01-28")
     = Some false →
     list_invoices canonical_date two_db (Some filters) = []).
Proof.
  intros filters.
  apply (list_invoices_date_range canonical_date two_db filters
           "2024-01-01" "2024-01-28"); try reflexivity; discriminate.
Defined.

Lemma list_invoices_type_customer_witness :
  (∀ (filters : gmap string string) s,
     filters !! "type" = Some "Inward" →
     s ∈ list_invoices canonical_date two_db (Some filters) →
     Summary.type s = "Inward")
  ∧ list_invoices canonical_date two_db (Some {[ "customer" := "acme" ]})
    ≡ₚ summary <$> List.filter
         (λ r, contains_nocase "acme" (SQLite.cstr (Invoice.customer r)))
         (invoices two_db).
Proof.
  apply (list_invoices_type_customer canonical_date two_db "Inward" "acme");
    (discriminate || reflexivity).
Defined.

(** C4, as the claim states it, fails: the customer filter is a LIKE
    pattern.  With the filter ["%"] the invoice of customer ["Acme"] is
    returned although ["Acme"] does not contain ["%"], and with the filter
    ["acme"] it is returned although ["Acme"] does not contain ["acme"]. *)
Lemma list_invoices_customer_not_substring :
  list_invoices canonical_date acme_db (Some {[ "customer" := "%" ]})
    = [summary acme_row]
  ∧ contains "%" (Invoice.customer acme_row) = false
  ∧ list_invoices canonical_date acme_db (Some {[ "customer" := "acme" ]})
    = [summary acme_row]
  ∧ contains "acme" (Invoice.customer acme_row) = false.
Proof. repeat split; vm_compute; reflexivity. Qed.



(** ** More on the writing methods *)

Lemma add_invoice_ok db invoice_no date itype customer items_text total notes :
  (∀ r, r ∈ invoices db → Invoice.invoice_no r ≠ invoice_no) →
  add_invoice invoice_no date itype customer items_text total notes db
  = (Ok (new_rowid (invoices db)),
     mkDB (invoices db ++
             [Invoice.mk (new_rowid (invoices db)) invoice_no date itype
                         customer items_text (SQLite.bind_double total) notes])
          (meta db)).
Proof.
  intros Hfree. apply invoice_no_taken_None_false in Hfree.
  unfold add_invoice. run_M. by rewrite Hfree.
Qed.

Lemma add_invoice_raise db invoice_no date itype customer items_text total notes :
  ¬ (∀ r, r ∈ invoices db → Invoice.invoice_no r ≠ invoice_no) →
  add_invoice invoice_no date itype customer items_text total notes db
  = (Raise Py.IntegrityError, db).
Proof.
  intros Hnot. unfold add_invoice. run_M.
  destruct (invoice_no_taken (invoices db) None invoice_no) eqn:E; [done|].
  exfalso. apply Hnot. by apply invoice_no_taken_None_false.
Qed.

Lemma invoice_no_taken_Some_false rows i no :
  invoice_no_taken rows (Some i) no = false ↔
  ∀ r, r ∈ rows → Invoice.id r ≠ i → Invoice.invoice_no r ≠ no.
Proof.
  unfold invoice_no_taken. induction rows as [|x rows IH]; simpl.
  - split; [intros _ r ?%elem_of_nil; done|done].
  - rewrite orb_false_iff, IH, andb_false_iff, negb_false_iff.
    rewrite bool_decide_eq_false, bool_decide_eq_true. split.
    + intros [H1 H2] r [->|Hr]%elem_of_cons Hid; [|by auto].
      destruct H1 as [H1|H1]; [done|congruence].
    + intros H. split; [|intros r Hr; apply H; by right].
      destruct (decide (Invoice.id x = i)) as [<-|Hne]; [by right|].
      left. apply H; [by left|done].
Qed.

Lemma find_id_map_set rows i j (new : Invoice.t) :
  Invoice.id new = i →
  List.find (λ r, bool_decide (Invoice.id r = j))
    (map (λ r, if bool_decide (Invoice.id r = i) then new else r) rows)
  = if bool_decide (j = i)
    then (λ _, new) <$> List.find (λ r, bool_decide (Invoice.id r = i)) rows
    else List.find (λ r, bool_decide (Invoice.id r = j)) rows.
Proof.
  intros Hnew. induction rows as [|x rows IH]; simpl; [by case_bool_decide|].
  destruct (decide (Invoice.id x = i)) as [Hx|Hx].
  - rewrite (bool_decide_eq_true_2 (Invoice.id x = i)) by done.
    destruct (decide (j = i)) as [->|Hj].
    + rewrite !bool_decide_eq_true_2 by done. done.
    + rewrite (bool_decide_eq_false_2 (j = i)) by done.
      rewrite (bool_decide_eq_false_2 (j = i)) in IH by done.
      rewrite !bool_decide_eq_false_2 by congruence. done.
  - rewrite (bool_decide_eq_false_2 (Invoice.id x = i)) by done.
    destruct (decide (j = i)) as [->|Hj].
    + rewrite (bool_decide_eq_true_2 (i = i)) in * by done.
      rewrite (bool_decide_eq_false_2 (Invoice.id x = i)) by done. done.
    + rewrite (bool_decide_eq_false_2 (j = i)) in * by done.
      destruct (bool_decide (Invoice.id x = j)); [done|apply IH].
Qed.

(** X1. [update_invoice] on a stored id, with an [invoice_no] that no other
    row uses (the row's own number is allowed), rewrites exactly that row:
    [get_invoice] on the id returns the new fields under the same id, every
    other id still yields its row, and the row count and [meta] are
    unchanged. *)
Theorem update_invoice_then_get db id_ old invoice_no date itype customer
    items_text total notes :
  get_invoice db id_ = Some old →
  (∀ r, r ∈ invoices db → Invoice.id r ≠ id_ →
        Invoice.invoice_no r ≠ invoice_no) →
  ∃ db',
    update_invoice id_ invoice_no date itype customer items_text total notes db
      = (Ok tt, db') ∧
    get_invoice db' id_
      = Some (Invoice.mk id_ invoice_no date itype customer items_text
                         (SQLite.bind_double total) notes) ∧
    (∀ j, j ≠ id_ → get_invoice db' j = get_invoice db j) ∧
    length (invoices db') = length (invoices db) ∧
    meta db' = meta db.
Proof.
  intros Hold Hfree. apply invoice_no_taken_Some_false in Hfree.
  unfold update_invoice. run_M. rewrite existsb_id_find.
  unfold get_invoice in *. rewrite Hold.
  rewrite bool_decide_eq_true_2 by eauto. rewrite Hfree. simpl.
  eexists. split; [reflexivity|]. simpl. repeat split.
  - rewrite find_id_map_set by done. rewrite bool_decide_eq_true_2 by done.
    by rewrite Hold.
  - intros j Hj. rewrite find_id_map_set by done.
    by rewrite bool_decide_eq_false_2.
  - apply length_map.
Qed.

(** X2. [update_invoice] on a stored id with the [invoice_no] of another
    stored row raises [IntegrityError] and changes nothing. *)
Theorem update_invoice_conflict db id_ old other date itype customer
    items_text total notes :
  get_invoice db id_ = Some old →
  other ∈ invoices db → Invoice.id other ≠ id_ →
  update_invoice id_ (Invoice.invoice_no other) date itype customer
                 items_text total notes db
  = (Raise Py.IntegrityError, db).
Proof.
  intros Hold Hother Hne. unfold update_invoice. run_M.
  rewrite existsb_id_find. unfold get_invoice in Hold. rewrite Hold.
  rewrite bool_decide_eq_true_2 by eauto.
  destruct (invoice_no_taken _ _ _) eqn:E; [done|].
  exfalso. by eapply invoice_no_taken_Some_false.
Qed.

(** X3. When [add_invoice] returns an id, that id was not in use and is
    larger than every stored id, every row stored before is still returned
    unchanged by [get_invoice], the table has one row more, and [meta] is
    untouched. *)
Theorem add_invoice_frame db invoice_no date itype customer items_text
    total notes id_ db' :
  add_invoice invoice_no date itype customer items_text total notes db
    = (Ok id_, db') →
  get_invoice db id_ = None ∧
  (∀ r, r ∈ invoices db → Invoice.id r < id_) ∧
  (∀ j row, get_invoice db j = Some row → get_invoice db' j = Some row) ∧
  length (invoices db') = S (length (invoices db)) ∧
  meta db' = meta db.
Proof.
  unfold add_invoice. run_M.
  destruct (invoice_no_taken _ _ _); [done|]. intros [= <- <-]. simpl.
  assert (Hlt : ∀ r, r ∈ invoices db → Invoice.id r < new_rowid (invoices db))
    by (intros r; apply new_rowid_fresh).
  repeat split; [|done| |].
  - apply find_id_None. intros r Hr. specialize (Hlt r Hr). lia.
  - intros j row Hrow. unfold get_invoice in *. simpl.
    by rewrite find_id_app, Hrow.
  - rewrite length_app. simpl. lia.
Qed.

(** X4. Deleting the invoice that [add_invoice] has just added gives back
    the database as it was before the insert (so the same id is given out
    again by the next insert: ids are not AUTOINCREMENT). *)
Theorem add_then_delete_invoice db invoice_no date itype customer items_text
    total notes id_ db' :
  add_invoice invoice_no date itype customer items_text total notes db
    = (Ok id_, db') →
  delete_invoice id_ db' = (Ok tt, db).
Proof.
  unfold add_invoice. run_M.
  destruct (invoice_no_taken _ _ _); [done|]. intros [= <- <-].
  unfold delete_invoice. run_M. f_equal. destruct db as [rows m]. simpl.
  f_equal. rewrite List.filter_app. simpl.
  rewrite bool_decide_eq_true_2 by done. simpl. rewrite app_nil_r.
  apply filter_id_absent. intros r Hr. apply new_rowid_fresh in Hr. lia.
Qed.

(** X5. [_create_tables] never raises and never touches the invoices.  It
    leaves a database that has a counter row exactly as it is, so opening
    the application again does not reset the numbering; without a counter
    row it adds one holding "0".  Running it a second time changes
    nothing. *)
Theorem create_tables_idempotent db :
  ∃ db',
    _create_tables db = (Ok tt, db') ∧
    invoices db' = invoices db ∧
    (∀ v, meta db !! last_invoice = Some v → db' = db) ∧
    (meta db !! last_invoice = None →
     meta db' = <[last_invoice := "0"]> (meta db)) ∧
    _create_tables db' = (Ok tt, db').
Proof.
  unfold _create_tables. run_M.
  destruct (meta db !! last_invoice) as [v|] eqn:E.
  - exists db. rewrite E. repeat split; done.
  - eexists. split; [reflexivity|]. simpl. rewrite lookup_insert_eq.
    repeat split; done.
Qed.

(** ** The table constraints in every reachable state *)

Lemma NoDup_fmap_filter {A B} (f : A → B) (p : A → bool) (l : list A) :
  NoDup (f <$> l) → NoDup (f <$> List.filter p l).
Proof.
  induction l as [|x l IH]; simpl; [done|].
  intros [Hx Hl]%NoDup_cons. destruct (p x); simpl; [|by apply IH].
  apply NoDup_cons. split; [|by apply IH].
  intros (r & Hr1 & Hr2)%list_elem_of_fmap. apply Hx.
  apply list_elem_of_fmap. exists r. split; [done|].
  apply list_elem_of_In in Hr2. apply filter_In in Hr2 as [Hr2 _].
  by apply list_elem_of_In.
Qed.

Lemma unique_invoice_no_update rows i (new : Invoice.t) :
  NoDup (Invoice.id <$> rows) → NoDup (Invoice.invoice_no <$> rows) →
  (∀ r, r ∈ rows → Invoice.id r ≠ i →
        Invoice.invoice_no r ≠ Invoice.invoice_no new) →
  NoDup (Invoice.invoice_no <$>
           map (λ r, if bool_decide (Invoice.id r = i) then new else r) rows).
Proof.
  induction rows as [|x rows IH]; simpl; [constructor|].
  intros [Hxi Hids]%NoDup_cons [Hxn Hnos]%NoDup_cons Hfree.
  assert (Hfree' : ∀ r, r ∈ rows → Invoice.id r ≠ i →
            Invoice.invoice_no r ≠ Invoice.invoice_no new)
    by (intros r Hr; apply Hfree; by right).
  apply NoDup_cons. split; [|by apply IH].
  intros (r' & Heq & Hr')%list_elem_of_fmap.
  apply list_elem_of_In, in_map_iff in Hr' as (r & <- & Hr).
  apply list_elem_of_In in Hr.
  destruct (decide (Invoice.id x = i)) as [Hx|Hx].
  - rewrite (bool_decide_eq_true_2 _ Hx) in Heq.
    assert (Invoice.id r ≠ i).
    { intros Hri. apply Hxi. rewrite Hx, <- Hri.
      apply list_elem_of_fmap. eauto. }
    rewrite bool_decide_eq_false_2 in Heq by done.
    by eapply Hfree'.
  - rewrite (bool_decide_eq_false_2 _ Hx) in Heq.
    case_bool_decide.
    + eapply Hfree; [by left|done|done].
    + apply Hxn. rewrite Heq. apply list_elem_of_fmap. eauto.
Qed.

Lemma new_rowid_pos rows :
  (∀ r, r ∈ rows → 1 ≤ Invoice.id r) → 1 ≤ new_rowid rows.
Proof.
  destruct rows as [|x rows]; simpl; [lia|]. intros H.
  assert (Hx : 1 ≤ Invoice.id x) by (apply H; by left).
  assert (∀ l z, z ≤ foldr (λ (r : Invoice.t) m, Z.max (Invoice.id r) m) z l).
  { induction l as [|y l IH]; simpl; intros z; [lia|].
    specialize (IH z). lia. }
  specialize (H0 rows (Invoice.id x)). lia.
Qed.

Lemma constraints_exec (c : call) db :
  primary_key db ∧ unique_invoice_no db ∧
    (∀ r, r ∈ invoices db → 1 ≤ Invoice.id r) →
  primary_key (exec c db) ∧ unique_invoice_no (exec c db) ∧
    (∀ r, r ∈ invoices (exec c db) → 1 ≤ Invoice.id r).
Proof.
  intros (Hpk & Huq & Hpos).
  destruct c as [|prefix|invoice_no date itype customer items_text total notes
                 |id_ invoice_no date itype customer items_text total notes
                 |id_]; simpl.
  - unfold _create_tables. run_M.
    by destruct (meta db !! last_invoice).
  - unfold next_invoice_no. run_M.
    destruct (meta db !! last_invoice) as [v|]; [|done].
    by destruct (Py.int v).
  - split; [by apply primary_key_add_invoice|].
    unfold unique_invoice_no, add_invoice in *. run_M.
    destruct (invoice_no_taken _ _ _) eqn:E; [done|]. simpl.
    pose proof (proj1 (invoice_no_taken_None_false _ _) E) as Hfree.
    split.
    + rewrite fmap_app. apply NoDup_app. split; [done|]. split.
      * intros no (r & -> & Hr)%list_elem_of_fmap Hin.
        apply list_elem_of_singleton in Hin. by eapply Hfree.
      * apply NoDup_singleton.
    + intros r [Hr|Hr]%elem_of_app; [by apply Hpos|].
      apply list_elem_of_singleton in Hr as ->. simpl.
      by apply new_rowid_pos.
  - split; [by apply primary_key_update_invoice|].
    unfold unique_invoice_no, primary_key, update_invoice in *. run_M.
    destruct (existsb _ _); [|done].
    destruct (invoice_no_taken _ _ _) eqn:E; [done|]. simpl.
    pose proof (proj1 (invoice_no_taken_Some_false _ _ _) E) as Hfree.
    split.
    + by apply (unique_invoice_no_update (invoices db) id_
                  (Invoice.mk id_ invoice_no date itype customer items_text
                              (SQLite.bind_double total) notes)).
    + intros r' Hr'. apply list_elem_of_In, in_map_iff in Hr' as (r & <- & Hr).
      apply list_elem_of_In in Hr. case_bool_decide as Hid; [|by apply Hpos].
      simpl. rewrite <- Hid. by apply Hpos.
  - split; [by apply primary_key_delete_invoice|].
    unfold unique_invoice_no, delete_invoice in *. run_M. split.
    + by apply NoDup_fmap_filter.
    + intros r Hr. apply list_elem_of_In, filter_In in Hr as [Hr _].
      apply Hpos. by apply list_elem_of_In.
Qed.

(** X6. After any sequence of method calls on a fresh database, whether
    they returned or raised, the constraints of the schema hold: no two rows
    share an id, no two rows share an [invoice_no], and every id is at
    least 1. *)
Theorem reachable_constraints (cs : list call) :
  primary_key (exec_all cs init) ∧ unique_invoice_no (exec_all cs init) ∧
  ∀ r, r ∈ invoices (exec_all cs init) → 1 ≤ Invoice.id r.
Proof.
  unfold exec_all.
  assert (H : primary_key init ∧ unique_invoice_no init ∧
              ∀ r, r ∈ invoices init → 1 ≤ Invoice.id r).
  { repeat split; try constructor. intros r Hr. by apply elem_of_nil in Hr. }
  revert H. generalize init. induction cs as [|c cs IH]; intros db H; [done|].
  simpl. apply IH. by apply constraints_exec.
Qed.

Lemma counter_exec (c : call) db text v :
  meta db !! last_invoice = Some text → Py.int text = Some v →
  ∃ text',
    meta (exec c db) !! last_invoice = Some text' ∧
    Py.int text' = Some (v + allocations [c]).
Proof.
  intros Htext Hv.
  destruct c as [|prefix|invoice_no date itype customer items_text total notes
                 |id_ invoice_no date itype customer items_text total notes
                 |id_]; simpl.
  - exists text. unfold _create_tables. run_M. rewrite Htext.
    by rewrite Z.add_0_r.
  - exists (Py.str (v + 1)).
    rewrite (next_invoice_no_step prefix db text v Htext Hv). simpl.
    rewrite lookup_insert_eq. split; [done|]. apply int_str.
  - exists text. unfold add_invoice. run_M.
    destruct (invoice_no_taken _ _ _); by rewrite Z.add_0_r.
  - exists text. unfold update_invoice. run_M.
    destruct (existsb _ _); [|by rewrite Z.add_0_r].
    destruct (invoice_no_taken _ _ _); by rewrite Z.add_0_r.
  - exists text. unfold delete_invoice. run_M. by rewrite Z.add_0_r.
Qed.

Lemma allocations_cons c cs :
  allocations (c :: cs) = allocations [c] + allocations cs.
Proof. unfold allocations. destruct c; simpl; lia. Qed.

(** X7. After any sequence of method calls on a fresh database the counter
    row exists and reads as the number of [next_invoice_no] calls made so
    far (no other method changes it, a failed insert included), so
    [next_invoice_no] cannot raise and returns that number plus one. *)
Theorem reachable_counter (cs : list call) :
  ∃ text,
    meta (exec_all cs init) !! last_invoice = Some text ∧
    Py.int text = Some (allocations cs) ∧
    ∀ prefix,
      fst (next_invoice_no prefix (exec_all cs init))
      = Ok (prefix ++ "-" ++ Py.format_05d (allocations cs + 1)).
Proof.
  assert (H : ∀ cs db text v,
    meta db !! last_invoice = Some text → Py.int text = Some v →
    ∃ text', meta (exec_all cs db) !! last_invoice = Some text' ∧
             Py.int text' = Some (v + allocations cs)).
  { clear cs. induction cs as [|c cs IH]; intros db text v Htext Hv.
    - exists text. by rewrite Z.add_0_r.
    - destruct (counter_exec c db text v Htext Hv) as (t1 & Ht1 & Hv1).
      destruct (IH (exec c db) t1 _ Ht1 Hv1) as (t2 & Ht2 & Hv2).
      exists t2. split; [done|]. rewrite Hv2, (allocations_cons c cs).
      f_equal. lia. }
  destruct (H cs init "0" 0) as (text & Htext & Hv); [done..|].
  exists text. split; [done|]. split; [done|]. intros prefix.
  by rewrite (next_invoice_no_step prefix _ text _ Htext Hv).
Qed.

(** ** InvoiceEditor.save *)

Lemma save_required_fields (py_float : string → option spec_float)
    invoice_id f db :
  fst (save py_float invoice_id f db) = Saved →
  Py.strip (invoice_no_var f) ≠ "" ∧ Py.strip (date_var f) ≠ "" ∧
  Py.strip (type_var f) ≠ "" ∧ Py.strip (customer_var f) ≠ "" ∧
  is_Some (save_total py_float f).
Proof.
  unfold save. destruct (save_total py_float f) as [x|]; [|done].
  destruct (_ || _) eqn:E; [done|]. intros _.
  rewrite !orb_false_iff in E. destruct E as [[[E1 E2] E3] E4].
  apply bool_decide_eq_false in E1, E2, E3, E4. eauto 6.
Qed.

(** X12. [save] changes the database only when it ends with the message
    'Saved'; and it ends with 'Saved' only when the invoice number, date,
    type and customer are non-blank after stripping and the total is blank
    or parses as a float. *)
Theorem save_all_or_nothing (py_float : string → option spec_float)
    invoice_id f db :
  (fst (save py_float invoice_id f db) ≠ Saved →
   snd (save py_float invoice_id f db) = db)
  ∧ (fst (save py_float invoice_id f db) = Saved →
     Py.strip (invoice_no_var f) ≠ "" ∧ Py.strip (date_var f) ≠ "" ∧
     Py.strip (type_var f) ≠ "" ∧ Py.strip (customer_var f) ≠ "" ∧
     is_Some (save_total py_float f)).
Proof.
  split; [|apply save_required_fields].
  unfold save. destruct (save_total py_float f) as [x|]; [|done].
  destruct (_ || _); [done|].
  assert (Hadd : ∀ a b c d e g h,
    match (match add_invoice a b c d e g h db with
           | (Ok _, db') => (Ok tt, db')
           | (Raise e, db') => (Raise e, db')
           end : result unit * DB) with
    | (Ok _, db') => (Saved, db')
    | (Raise _, db') => (Could_not_save, db')
    end.1 ≠ Saved →
    match (match add_invoice a b c d e g h db with
           | (Ok _, db') => (Ok tt, db')
           | (Raise e, db') => (Raise e, db')
           end : result unit * DB) with
    | (Ok _, db') => (Saved, db')
    | (Raise _, db') => (Could_not_save, db')
    end.2 = db).
  { intros a b c d e g h. unfold add_invoice. run_M.
    by destruct (invoice_no_taken _ _ _). }
  destruct invoice_id as [i|]; [|apply Hadd].
  case_bool_decide; [apply Hadd|].
  unfold update_invoice. run_M.
  destruct (existsb _ _); [|done]. by destruct (invoice_no_taken _ _ _).
Qed.

(** X13. [save] of a new invoice with non-blank required fields, a total
    that parses and an invoice number not in use ends with 'Saved', and the
    stored row holds the stripped texts of the form under a fresh id. *)
Theorem save_new_invoice (py_float : string → option spec_float) f db x :
  Py.strip (invoice_no_var f) ≠ "" → Py.strip (date_var f) ≠ "" →
  Py.strip (type_var f) ≠ "" → Py.strip (customer_var f) ≠ "" →
  save_total py_float f = Some x →
  (∀ r, r ∈ invoices db →
        Invoice.invoice_no r ≠ Py.strip (invoice_no_var f)) →
  ∃ id_ db',
    save py_float None f db = (Saved, db') ∧
    get_invoice db id_ = None ∧
    get_invoice db' id_
    = Some (Invoice.mk id_ (Py.strip (invoice_no_var f))
              (Py.strip (date_var f)) (Py.strip (type_var f))
              (Py.strip (customer_var f)) (Py.strip (items_txt f))
              (SQLite.bind_double x) (Py.strip (notes_txt f))).
Proof.
  intros H1 H2 H3 H4 Hx Hfree. unfold save. rewrite Hx.
  rewrite !bool_decide_eq_false_2 by done. cbn [orb].
  rewrite add_invoice_ok by done.
  exists (new_rowid (invoices db)). eexists. split; [reflexivity|].
  assert (Hnone : List.find (λ r, bool_decide
            (Invoice.id r = new_rowid (invoices db))) (invoices db) = None).
  { apply find_id_None. intros r Hr. apply new_rowid_fresh in Hr. lia. }
  split; [exact Hnone|].
  unfold get_invoice. simpl. rewrite find_id_app, Hnone. simpl.
  by rewrite bool_decide_eq_true_2.
Qed.

(** X14. [save] of an edited invoice whose id is no longer stored ends
    with 'Saved' although the database is unchanged: the silent no-op of
    [update_invoice] is reported as success. *)
Theorem save_edit_missing (py_float : string → option spec_float)
    id_ f db x :
  id_ ≠ 0 → get_invoice db id_ = None →
  Py.strip (invoice_no_var f) ≠ "" → Py.strip (date_var f) ≠ "" →
  Py.strip (type_var f) ≠ "" → Py.strip (customer_var f) ≠ "" →
  save_total py_float f = Some x →
  save py_float (Some id_) f db = (Saved, db).
Proof.
  intros Hid Hget H1 H2 H3 H4 Hx. unfold save. rewrite Hx.
  rewrite !bool_decide_eq_false_2 by done. cbn [orb].
  unfold update_invoice. run_M. rewrite existsb_id_find.
  unfold get_invoice in Hget. rewrite Hget.
  rewrite bool_decide_eq_false_2; [done|]. by intros [? ?].
Qed.

(** ** InvoiceApp.insert_sample *)

Lemma foldr_max_snoc (l : list Invoice.t) (z : Z) (r : Invoice.t) :
  z < Invoice.id r → (∀ y, y ∈ l → Invoice.id y < Invoice.id r) →
  foldr (λ (x : Invoice.t) m, Z.max (Invoice.id x) m) z (l ++ [r])
  = Invoice.id r.
Proof.
  intros Hz. induction l as [|y l IH]; simpl; intros Hl; [lia|].
  rewrite IH by (intros y' Hy'; apply Hl; by right).
  assert (Invoice.id y < Invoice.id r) by (apply Hl; by left). lia.
Qed.

Lemma new_rowid_snoc (rows : list Invoice.t) (r : Invoice.t) :
  (∀ y, y ∈ rows → Invoice.id y < Invoice.id r) →
  new_rowid (rows ++ [r]) = Invoice.id r + 1.
Proof.
  destruct rows as [|x rows]; simpl; intros H; [lia|].
  rewrite foldr_max_snoc; [done| |].
  - apply H. by left.
  - intros y Hy. apply H. by right.
Qed.

Lemma sample_no_inj (a b : Z) :
  "SAMPLE-" ++ Py.format_05d a = "SAMPLE-" ++ Py.format_05d b → a = b.
Proof.
  intros H.
  pose proof (numeric_suffix_format "SAMPLE" a) as Ha.
  pose proof (numeric_suffix_format "SAMPLE" b) as Hb.
  change ("SAMPLE" ++ "-" ++ ?x) with ("SAMPLE-" ++ x) in Ha, Hb.
  rewrite H in Ha. congruence.
Qed.

(** One iteration whose invoice number is free. *)
Lemma insert_sample_body_ok (today : Z → string) (i : Z) db text v w :
  meta db !! last_invoice = Some text → Py.int text = Some w →
  w = v + i →
  (∀ r, r ∈ invoices db →
        Invoice.invoice_no r ≠ "SAMPLE-" ++ Py.format_05d (v + 1 + i)) →
  insert_sample_body today i db
  = (Ok tt,
     mkDB (invoices db ++ [sample_row today v (new_rowid (invoices db)) i])
          (<[last_invoice := Py.str (v + 1 + i)]> (meta db))).
Proof.
  intros Htext Hw -> Hfree. unfold insert_sample_body.
  unfold mbind at 1. unfold M_bind at 1.
  rewrite (next_invoice_no_step "SAMPLE" db text _ Htext Hw).
  replace (v + i + 1) with (v + 1 + i) by lia.
  change ("SAMPLE" ++ "-" ++ ?x) with ("SAMPLE-" ++ x).
  unfold mbind, M_bind. rewrite add_invoice_ok by done. done.
Qed.

(** One iteration whose invoice number is in use. *)
Lemma insert_sample_body_taken (today : Z → string) (i : Z) db text v w r :
  meta db !! last_invoice = Some text → Py.int text = Some w →
  w = v + i →
  r ∈ invoices db →
  Invoice.invoice_no r = "SAMPLE-" ++ Py.format_05d (v + 1 + i) →
  insert_sample_body today i db
  = (Raise Py.IntegrityError,
     mkDB (invoices db) (<[last_invoice := Py.str (v + 1 + i)]> (meta db))).
Proof.
  intros Htext Hw -> Hr Hno. unfold insert_sample_body.
  unfold mbind at 1. unfold M_bind at 1.
  rewrite (next_invoice_no_step "SAMPLE" db text _ Htext Hw).
  replace (v + i + 1) with (v + 1 + i) by lia.
  change ("SAMPLE" ++ "-" ++ ?x) with ("SAMPLE-" ++ x).
  unfold mbind, M_bind. rewrite add_invoice_raise; [done|].
  intros H. by apply (H r).
Qed.

(** X15. When the counter reads [v] and none of the numbers SAMPLE-(v+1),
    SAMPLE-(v+2), SAMPLE-(v+3) is in use, [insert_sample] ends with
    'Inserted', appends exactly three rows with these numbers, consecutive
    new ids, types Outward, Inward, Outward and customers Customer 1 to 3,
    and leaves the counter at [v+3]. *)
Theorem insert_sample_inserts (today : Z → string) db text v :
  meta db !! last_invoice = Some text → Py.int text = Some v →
  (∀ r i, r ∈ invoices db → 0 ≤ i < 3 →
          Invoice.invoice_no r ≠ "SAMPLE-" ++ Py.format_05d (v + 1 + i)) →
  ∃ db',
    insert_sample today db = (Inserted, db') ∧
    invoices db'
    = (invoices db ++
       [ sample_row today v (new_rowid (invoices db)) 0;
         sample_row today v (new_rowid (invoices db) + 1) 1;
         sample_row today v (new_rowid (invoices db) + 2) 2 ])%list ∧
    meta db' !! last_invoice = Some (Py.str (v + 3)).
Proof.
  intros Htext Hv Hfree.
  set (n := new_rowid (invoices db)).
  set (r0 := sample_row today v n 0).
  set (r1 := sample_row today v (n + 1) 1).
  set (r2 := sample_row today v (n + 2) 2).
  set (db1 := mkDB (invoices db ++ [r0])
                   (<[last_invoice := Py.str (v + 1 + 0)]> (meta db))).
  set (db2 := mkDB (invoices db1 ++ [r1])
                   (<[last_invoice := Py.str (v + 1 + 1)]> (meta db1))).
  set (db3 := mkDB (invoices db2 ++ [r2])
                   (<[last_invoice := Py.str (v + 1 + 2)]> (meta db2))).
  assert (Hlt : ∀ y, y ∈ invoices db → Invoice.id y < n)
    by (intros y; apply new_rowid_fresh).
  assert (Hn1 : new_rowid (invoices db1) = n + 1).
  { subst db1. simpl. by rewrite new_rowid_snoc. }
  assert (Hn2 : new_rowid (invoices db2) = n + 2).
  { subst db2. simpl. rewrite new_rowid_snoc; [simpl; lia|].
    intros y Hy. subst db1. simpl in *.
    apply elem_of_app in Hy as [Hy|Hy]; [specialize (Hlt y Hy); lia|].
    apply list_elem_of_singleton in Hy as ->. simpl. lia. }
  assert (E0 : insert_sample_body today 0 db = (Ok tt, db1)).
  { apply (insert_sample_body_ok today 0 db text v v); [done|done|lia|].
    intros r Hr. apply Hfree; [done|lia]. }
  assert (E1 : insert_sample_body today 1 db1 = (Ok tt, db2)).
  { subst db2 r1. rewrite <- Hn1.
    apply (insert_sample_body_ok today 1 db1 (Py.str (v + 1 + 0)) v (v + 1)).
    - subst db1. simpl. apply lookup_insert_eq.
    - rewrite int_str. f_equal. lia.
    - done.
    - subst db1. simpl. intros r [Hr|Hr]%elem_of_app.
      + apply Hfree; [done|lia].
      + apply list_elem_of_singleton in Hr as ->. simpl.
        intros H%sample_no_inj. lia. }
  assert (E2 : insert_sample_body today 2 db2 = (Ok tt, db3)).
  { subst db3 r2. rewrite <- Hn2.
    apply (insert_sample_body_ok today 2 db2 (Py.str (v + 1 + 1)) v (v + 2)).
    - subst db2. simpl. apply lookup_insert_eq.
    - rewrite int_str. f_equal. lia.
    - done.
    - subst db2 db1. simpl. intros r [[Hr|Hr]%elem_of_app|Hr]%elem_of_app.
      + apply Hfree; [done|lia].
      + apply list_elem_of_singleton in Hr as ->. simpl.
        intros H%sample_no_inj. lia.
      + apply list_elem_of_singleton in Hr as ->. simpl.
        intros H%sample_no_inj. lia. }
  exists db3. unfold insert_sample. cbn [for_in].
  unfold mbind, M_bind. rewrite E0, E1, E2. cbn [mret M_ret].
  split; [done|]. split.
  - subst db3 db2 db1. simpl. by rewrite <- !app_assoc.
  - subst db3. simpl. rewrite lookup_insert_eq. do 2 f_equal. lia.
Qed.

(** X16. [insert_sample] is not atomic: when SAMPLE-(v+1) is free but
    SAMPLE-(v+2) is in use, it reports the IntegrityError, yet the first
    sample row stays inserted and the counter stays advanced to [v+2]. *)
Theorem insert_sample_partial (today : Z → string) db text v taken :
  meta db !! last_invoice = Some text → Py.int text = Some v →
  (∀ r, r ∈ invoices db →
        Invoice.invoice_no r ≠ "SAMPLE-" ++ Py.format_05d (v + 1)) →
  taken ∈ invoices db →
  Invoice.invoice_no taken = "SAMPLE-" ++ Py.format_05d (v + 2) →
  ∃ db',
    insert_sample today db = (Sample_error Py.IntegrityError, db') ∧
    invoices db'
    = (invoices db ++ [sample_row today v (new_rowid (invoices db)) 0])%list ∧
    meta db' !! last_invoice = Some (Py.str (v + 2)).
Proof.
  intros Htext Hv Hfree Htaken Hno.
  set (db1 := mkDB (invoices db ++
                      [sample_row today v (new_rowid (invoices db)) 0])
                   (<[last_invoice := Py.str (v + 1 + 0)]> (meta db))).
  assert (E0 : insert_sample_body today 0 db = (Ok tt, db1)).
  { apply (insert_sample_body_ok today 0 db text v v); [done|done|lia|].
    intros r Hr. rewrite Z.add_0_r. by apply Hfree. }
  assert (E1 : insert_sample_body today 1 db1
               = (Raise Py.IntegrityError,
                  mkDB (invoices db1)
                       (<[last_invoice := Py.str (v + 1 + 1)]> (meta db1)))).
  { apply (insert_sample_body_taken today 1 db1 (Py.str (v + 1 + 0)) v
             (v + 1) taken).
    - subst db1. simpl. apply lookup_insert_eq.
    - rewrite int_str. f_equal. lia.
    - done.
    - subst db1. simpl. apply elem_of_app. by left.
    - rewrite Hno. do 2 f_equal. lia. }
  eexists. unfold insert_sample. cbn [for_in].
  unfold mbind, M_bind. rewrite E0, E1.
  split; [reflexivity|]. split; [done|].
  simpl. rewrite lookup_insert_eq. do 2 f_equal. lia.
Qed.

(** ** More on listing *)

Lemma filter_sublist {A} (p : A → bool) (l : list A) :
  List.filter p l `sublist_of` l.
Proof.
  induction l as [|x l IH]; simpl; [constructor|].
  destruct (p x); by constructor.
Qed.

(** X8. Whatever the filters, the rows [list_invoices] returns are
    projections of distinct stored rows: the result is a sub-multiset of
    the projections of the table, so it is never longer than the table. *)
Theorem list_invoices_submseteq (sql_date : string → option string)
    db filters :
  list_invoices sql_date db filters ⊆+ summary <$> invoices db
  ∧ (length (list_invoices sql_date db filters) ≤ length (invoices db))%nat.
Proof.
  assert (H : list_invoices sql_date db filters ⊆+ summary <$> invoices db).
  { unfold list_invoices. apply fmap_submseteq.
    rewrite merge_sort_Permutation. apply sublist_submseteq, filter_sublist. }
  split; [done|]. apply submseteq_length in H. by rewrite length_fmap in H.
Qed.

Lemma build_filters_lookup ty c i f t :
  build_filters ty c i f t !! "type" = Some ty ∧
  build_filters ty c i f t !! "customer" = Some (Py.strip c) ∧
  build_filters ty c i f t !! "invoice_no" = Some (Py.strip i) ∧
  build_filters ty c i f t !! "date_from" = Some (Py.strip f) ∧
  build_filters ty c i f t !! "date_to" = Some (Py.strip t).
Proof.
  unfold build_filters. repeat split;
    repeat (rewrite lookup_insert_ne by done); by rewrite lookup_insert_eq.
Qed.

Lemma build_conds_build_filters ty c i f t :
  build_conds (build_filters ty c i f t)
  = ((if bool_decide (ty = "") then [] else [TypeEq ty])
     ++ (if bool_decide (Py.strip c = "") then []
         else [CustomerLike ("%" ++ Py.strip c ++ "%")%string])
     ++ (if bool_decide (Py.strip i = "") then []
         else [InvoiceNoLike ("%" ++ Py.strip i ++ "%")%string])
     ++ (if bool_decide (Py.strip f = "") then [] else [DateFrom (Py.strip f)])
     ++ (if bool_decide (Py.strip t = "") then []
         else [DateTo (Py.strip t)]))%list.
Proof.
  destruct (build_filters_lookup ty c i f t) as (H1 & H2 & H3 & H4 & H5).
  unfold build_conds, active. rewrite H1, H2, H3, H4, H5.
  repeat case_bool_decide; done.
Qed.

Lemma filter_true {A} (l : list A) : List.filter (λ _, true) l = l.
Proof. induction l as [|x l IH]; simpl; [done|]. by rewrite IH. Qed.

(** X9. With the type box empty and only blanks (or nothing) in the other
    search boxes, [load_invoices] shows what [list_invoices] returns without
    filters: every invoice. *)
Theorem load_invoices_blank (sql_date : string → option string) db
    (customer_search inv_search date_from date_to : string) :
  Py.strip customer_search = "" → Py.strip inv_search = "" →
  Py.strip date_from = "" → Py.strip date_to = "" →
  load_invoices sql_date db "" customer_search inv_search date_from date_to
  = list_invoices sql_date db None.
Proof.
  intros Hc Hi Hf Ht. unfold load_invoices, list_invoices. cbv zeta.
  change (default ∅ (Some ?x)) with x.
  rewrite build_conds_build_filters, Hc, Hi, Hf, Ht. done.
Qed.

(** X10. With text in the invoice number box only, whose stripped form [v]
    has no NUL and no LIKE wildcard, [load_invoices] shows exactly the
    invoices whose [invoice_no] contains [v] as a substring when ASCII
    letters are compared without case. *)
Theorem load_invoices_invoice_no (sql_date : string → option string) db
    (customer_search inv_search date_from date_to v : string) :
  Py.strip inv_search = v → v ≠ "" → plain v = true →
  Py.strip customer_search = "" →
  Py.strip date_from = "" → Py.strip date_to = "" →
  load_invoices sql_date db "" customer_search inv_search date_from date_to
  ≡ₚ summary <$> List.filter
       (λ r, contains_nocase v (SQLite.cstr (Invoice.invoice_no r)))
       (invoices db).
Proof.
  intros Hi Hne Hplain Hc Hf Ht. unfold load_invoices, list_invoices. cbv zeta.
  change (default ∅ (Some ?x)) with x.
  rewrite build_conds_build_filters, Hc, Hi, Hf, Ht.
  rewrite (bool_decide_eq_false_2 (v = "")) by done.
  rewrite merge_sort_Permutation. apply fmap_Permutation.
  erewrite filter_ext_bool; [done|]. intros r. simpl.
  rewrite andb_true_r, like_contains by done.
  by destruct (contains_nocase _ _).
Qed.

(** X11. A non-empty date bound that [date()] cannot read makes
    [list_invoices] return no row at all, without an error. *)
Theorem list_invoices_unreadable_bound (sql_date : string → option string)
    db (filters : gmap string string) (v : string) :
  filters !! "date_from" = Some v ∨ filters !! "date_to" = Some v →
  v ≠ "" → sql_date v = None →
  list_invoices sql_date db (Some filters) = [].
Proof.
  intros Hk Hne Hnull. apply elem_of_nil_inv.
  intros s (r & -> & Hr & Hw)%elem_of_list_invoices. simpl in Hw.
  destruct Hk as [Hk|Hk].
  - pose proof (where_elem sql_date _ r (DateFrom v) Hw) as H.
    unfold build_conds in H. rewrite (active_Some _ _ _ Hk Hne) in H.
    rewrite !elem_of_app in H.
    specialize (H ltac:(do 3 right; left; by left)).
    simpl in H. by rewrite Hnull in H.
  - pose proof (where_elem sql_date _ r (DateTo v) Hw) as H.
    unfold build_conds in H. rewrite (active_Some _ _ _ Hk Hne) in H.
    rewrite !elem_of_app in H.
    specialize (H ltac:(do 4 right; by left)).
    simpl in H. rewrite Hnull in H. by destruct (sql_date (Invoice.date r)).
Qed.

(** ** The lines of the printed invoice *)

Lemma split_facts (sep : ascii) (s : string) :
  String.concat (String sep "") (split sep s) = s
  ∧ length (split sep s) = S (count_char sep s)
  ∧ Forall (λ l, count_char sep l = 0%nat) (split sep s).
Proof.
  induction s as [|c s (IH1 & IH2 & IH3)]; [by repeat constructor|].
  cbn [split count_char]. destruct (Ascii.eqb c sep) eqn:E.
  - apply Ascii.eqb_eq in E as ->. split; [|split].
    + destruct (split sep s) as [|y l]; [done|].
      change (String.concat (String sep "") ("" :: y :: l))
        with (String sep (String.concat (String sep "") (y :: l))).
      by rewrite IH1.
    + simpl. by rewrite IH2.
    + by constructor.
  - destruct (split sep s) as [|y l]; [done|]. split; [|split].
    + rewrite <- IH1. by destruct l.
    + done.
    + inversion IH3; subst. constructor; [|done]. simpl. by rewrite E.
Qed.

(** X17. The entries [generate_pdf_invoice] draws for the items (and for
    the notes): none for empty text; otherwise one per line, no entry holds
    a newline, there is one entry more than newlines in the text, and the
    entries joined by newlines give back the text. *)
Theorem pdf_lines_spec (text : string) :
  (text = "" → pdf_lines text = [])
  ∧ (text ≠ "" →
     String.concat (String csv.LF "") (pdf_lines text) = text ∧
     length (pdf_lines text) = S (count_char csv.LF text) ∧
     Forall (λ l, count_char csv.LF l = 0%nat) (pdf_lines text)).
Proof.
  split; [by intros ->|]. intros Hne.
  destruct text as [|c text]; [done|]. apply split_facts.
Qed.

(** ** The further properties at concrete inputs *)

Ltac stored_rows H :=
  vm_compute in H;
  repeat (apply elem_of_cons in H as [->|H]);
  [..|by apply elem_of_nil in H].

Lemma update_invoice_then_get_witness :
  ∃ db',
    update_invoice 1 "INV-00001" "2024-01-11" "Outward" "Acme Ltd" "Bolt"
                   fifty "paid" two_db = (Ok tt, db') ∧
    get_invoice db' 1
      = Some (Invoice.mk 1 "INV-00001" "2024-01-11" "Outward" "Acme Ltd"
                         "Bolt" (SQLite.bind_double fifty) "paid") ∧
    (∀ j, j ≠ 1 → get_invoice db' j = get_invoice two_db j) ∧
    length (invoices db') = length (invoices two_db) ∧
    meta db' = meta two_db.
Proof.
  apply (update_invoice_then_get two_db 1 acme_row); [reflexivity|].
  intros r Hr. stored_rows Hr; [done|discriminate].
Defined.

Lemma beta_row_stored : beta_row ∈ invoices two_db.
Proof. vm_compute. right. left. Defined.

Lemma update_invoice_conflict_witness :
  update_invoice 1 "SAMPLE-00002" "2024-01-11" "Outward" "Acme" "" fifty ""
                 two_db
  = (Raise Py.IntegrityError, two_db).
Proof.
  apply (update_invoice_conflict two_db 1 acme_row beta_row);
    [reflexivity|exact beta_row_stored|discriminate].
Defined.

Lemma add_invoice_frame_witness :
  get_invoice acme_db 2 = None ∧
  (∀ r, r ∈ invoices acme_db → Invoice.id r < 2) ∧
  (∀ j row, get_invoice acme_db j = Some row → get_invoice two_db j = Some row) ∧
  length (invoices two_db) = S (length (invoices acme_db)) ∧
  meta two_db = meta acme_db.
Proof.
  apply (add_invoice_frame acme_db "SAMPLE-00002" "2024-02-05" "Inward"
           "Customer 1" sample_items three_hundred
           "Sample invoice created for testing" 2 two_db).
  reflexivity.
Defined.

Lemma add_then_delete_invoice_witness :
  delete_invoice 2 two_db = (Ok tt, acme_db).
Proof.
  apply (add_then_delete_invoice acme_db "SAMPLE-00002" "2024-02-05" "Inward"
           "Customer 1" sample_items three_hundred
           "Sample invoice created for testing" 2 two_db).
  reflexivity.
Defined.

Lemma load_invoices_blank_witness :
  load_invoices canonical_date two_db "" "  " "" " " ""
  = list_invoices canonical_date two_db None.
Proof. apply load_invoices_blank; reflexivity. Defined.

Lemma load_invoices_invoice_no_witness :
  load_invoices canonical_date two_db "" "" " sample " "" ""
  ≡ₚ summary <$> List.filter
       (λ r, contains_nocase "sample" (SQLite.cstr (Invoice.invoice_no r)))
       (invoices two_db).
Proof.
  apply load_invoices_invoice_no; (reflexivity || discriminate).
Defined.

Lemma list_invoices_unreadable_bound_witness :
  list_invoices canonical_date two_db (Some {[ "date_from" := "soon" ]}) = [].
Proof.
  apply (list_invoices_unreadable_bound canonical_date two_db _ "soon");
    [by left|discriminate|reflexivity].
Defined.

Lemma save_new_invoice_witness :
  ∃ id_ db',
    save float_of_fifty None bolt_form acme_db = (Saved, db') ∧
    get_invoice acme_db id_ = None ∧
    get_invoice db' id_
    = Some (Invoice.mk id_ (Py.strip (invoice_no_var bolt_form))
              (Py.strip (date_var bolt_form)) (Py.strip (type_var bolt_form))
              (Py.strip (customer_var bolt_form))
              (Py.strip (items_txt bolt_form))
              (SQLite.bind_double fifty) (Py.strip (notes_txt bolt_form))).
Proof.
  apply (save_new_invoice float_of_fifty bolt_form acme_db fifty);
    try discriminate; try reflexivity.
  intros r Hr. stored_rows Hr. discriminate.
Defined.

Lemma save_edit_missing_witness :
  save float_of_fifty (Some 9) bolt_form acme_db = (Saved, acme_db).
Proof.
  apply (save_edit_missing float_of_fifty 9 bolt_form acme_db fifty);
    try discriminate; reflexivity.
Defined.

Lemma insert_sample_inserts_witness :
  ∃ db',
    insert_sample march_first init = (Inserted, db') ∧
    invoices db'
    = (invoices init ++
       [ sample_row march_first 0 (new_rowid (invoices init)) 0;
         sample_row march_first 0 (new_rowid (invoices init) + 1) 1;
         sample_row march_first 0 (new_rowid (invoices init) + 2) 2 ])%list ∧
    meta db' !! last_invoice = Some (Py.str (0 + 3)).
Proof.
  apply (insert_sample_inserts march_first init "0" 0); try reflexivity.
  intros r i Hr. by apply elem_of_nil in Hr.
Defined.

Lemma clash_row_stored : clash_row ∈ invoices clash_db.
Proof. vm_compute. left. Defined.

Lemma insert_sample_partial_witness :
  ∃ db',
    insert_sample march_first clash_db
      = (Sample_error Py.IntegrityError, db') ∧
    invoices db'
    = (invoices clash_db
       ++ [sample_row march_first 0 (new_rowid (invoices clash_db)) 0])%list ∧
    meta db' !! last_invoice = Some (Py.str (0 + 2)).
Proof.
  apply (insert_sample_partial march_first clash_db "0" 0 clash_row);
    try reflexivity; [|exact clash_row_stored].
  intros r Hr. stored_rows Hr. discriminate.
Defined.

(** ** The model on concrete inputs *)

Example str_ex : Py.str 42 = "42" /\ Py.str 0 = "0" /\ Py.str (-7) = "-7".
Proof. repeat split. Qed.
Example int_ex :
  Py.int "42" = Some 42 /\ Py.int " -1_000 " = Some (-1000) /\
  Py.int "" = None /\ Py.int "1__0" = None /\ Py.int "007" = Some 7 /\
  Py.int "-" = None /\ Py.int "4 2" = None.
Proof. repeat split. Qed.
Example format_ex :
  Py.format_05d 1 = "00001" /\ Py.format_05d 123456 = "123456" /\
  Py.format_05d (-4) = "-0004" /\ Py.format_05d 99999 = "99999".
Proof. repeat split. Qed.

Example create_tables_ex :
  meta init !! last_invoice = Some "0" ∧ invoices init = []
  ∧ snd (_create_tables init) = init.
Proof. repeat split. Qed.

Example next_invoice_no_ex :
  fst (next_invoice_no "INV" init) = Ok "INV-00001"
  ∧ fst (next_invoice_nos ["SAMPLE"; "INV"; "SAMPLE"] init)
    = Ok ["SAMPLE-00001"; "INV-00002"; "SAMPLE-00003"].
Proof. split; vm_compute; reflexivity. Qed.

(** The example scenario of the specification. *)
Example scenario_ex :
  get_invoice acme_db 1 = Some acme_row
  ∧ summary acme_row
    ∈ list_invoices canonical_date acme_db (Some {[ "type" := "Outward" ]})
  ∧ list_invoices canonical_date acme_db (Some {[ "type" := "Inward" ]}) = [].
Proof. repeat split; vm_compute; try reflexivity. left. Qed.

Example list_order_ex :
  Summary.id <$> list_invoices canonical_date two_db None = [2; 1]
  ∧ Summary.id <$> list_invoices canonical_date two_db
      (Some (<["date_from" := "2024-02-01"]> {[ "date_to" := "2024-02-28" ]}))
    = [2]
  ∧ list_invoices canonical_date two_db
      (Some (<["date_from" := "2024-02-28"]> {[ "date_to" := "2024-01-01" ]}))
    = [].
Proof. repeat split; vm_compute; reflexivity. Qed.

Example like_ex :
  SQLite.like "Acme Corp" "%corp%" = true
  ∧ SQLite.like "Acme Corp" "%c_rp%" = true
  ∧ SQLite.like "Acme Corp" "%crp%" = false
  ∧ SQLite.like "Acme" "acme" = true
  ∧ SQLite.like "Acme" "%%%" = true.
Proof. repeat split. Qed.

Example csv_ex :
  let q := String csv.quotechar "" in
  let say_hi := "say " ++ q ++ "hi" ++ q in
  csv.writerow csv.lineterminator ["a,b"; say_hi; ""]
  = q ++ "a,b" ++ q ++ "," ++ q ++ "say " ++ q ++ q ++ "hi" ++ q ++ q ++ q
    ++ "," ++ csv.lineterminator
  ∧ csv.reader csv.field_size_limit
      (csv.writerow csv.lineterminator ["a,b"; sample_items; say_hi; ""]
       ++ csv.writerow csv.lineterminator []
       ++ csv.writerow csv.lineterminator [""])
    = Some [["a,b"; sample_items; say_hi; ""]; []; [""]]
  ∧ csv.readlines (csv.writerow csv.lineterminator ["1"; sample_items])
    = ["1," ++ q ++ "Item A x1 - 100" ++ String csv.LF "";
       "Item B x2 - 200" ++ q ++ csv.lineterminator].
Proof. repeat split; vm_compute; reflexivity. Qed.

(** A field longer than the reader's limit is an error. *)
Example field_limit_ex :
  csv.reader 3 (csv.writerow csv.lineterminator ["abc"; "de"])
  = Some [["abc"; "de"]]
  ∧ csv.reader 3 (csv.writerow csv.lineterminator ["abcd"; "de"]) = None.
Proof. split; vm_compute; reflexivity. Qed.

(** With the line terminator of pandas on a POSIX system a carriage return
    alone does not make the writer quote the field; a line feed does. *)
Example to_csv_ex :
  let q := String csv.quotechar "" in
  csv.writerow posix_linesep [String "a" (String csv.CR "b"); "c"]
  = String "a" (String csv.CR "b") ++ ",c" ++ posix_linesep
  ∧ csv.writerow posix_linesep [String "a" (String csv.LF "b"); "c"]
    = q ++ String "a" (String csv.LF "b") ++ q ++ ",c" ++ posix_linesep
  ∧ csv.writerow csv.lineterminator [String "a" (String csv.CR "b"); "c"]
    = q ++ String "a" (String csv.CR "b") ++ q ++ ",c" ++ csv.lineterminator.
Proof. repeat split; vm_compute; reflexivity. Qed.

(** [int()] does not skip the separators 28-31, which [str.strip()]
    removes; it skips the no-break space. *)
Example int_space_ex :
  Py.int (String "028" "7") = None
  ∧ Py.strip (String "028" "7") = "7"
  ∧ Py.int (String "160" " 7 ") = Some 7.
Proof. repeat split; vm_compute; reflexivity. Qed.

(** The negative zero is read back from the table as the positive zero. *)
Example negative_zero_ex :
  get_invoice
    (snd (add_invoice "INV-00001" "2024-01-10" "Outward" "Acme" ""
                      (S754_zero true) "" init)) 1
  = Some (Invoice.mk 1 "INV-00001" "2024-01-10" "Outward" "Acme" ""
                     (Some (S754_zero false)) "").
Proof. vm_compute; reflexivity. Qed.
